(** * FinalAssignment.py: the PurpleAir [DataSet] engine

    A shallow embedding of [src/FinalAssignment.py] (class [DataSet] and
    the Python builtins it calls), followed by the properties of the
    dataset engine.

    Conventions.
    - A Python [float] is an IEEE 754 binary64 number: Rocq's primitive
      [float].  A decimal literal denotes the nearest binary64 value, in
      Python as in Rocq.
    - A Python [str] is a [string], a sequence of characters ([ascii]);
      [len] is [String.length] and [==] is [String.eqb].
    - A [dict] keeps its keys in insertion order, which the cross table
      displays: it is an association list.
    - A [set] of strings has no order of its own; the order in which
      [list(times)] enumerates it is a parameter of the model
      ([list_of_set]).
    - A method that mutates [self] is a function from the state before the
      call to the outcome and the state after it, whether the call returns
      or raises. *)

From Stdlib Require Import Floats ZArith List String Ascii Bool Lia.
From Stdlib Require Import Permutation DecimalString.
Import ListNotations.

Set Warnings "-inexact-float".

Local Open Scope string_scope.
Local Open Scope list_scope.

(** ** Exceptions and outcomes *)

(** The two exception classes of the module, and the builtin exceptions
    its statements can raise. *)
Inductive exn : Type :=
| EmptyDatasetError
| NoMatchingItems
| ValueError
| LookupError
| KeyError
| IndexError
| TypeError
| ZeroDivisionError
| FileNotFoundError.

Inductive result (A : Type) : Type :=
| Ok (a : A)
| Raise (e : exn).

Arguments Ok {A} a.
Arguments Raise {A} e.

(** A computation over a mutable state [S]: it ends with a value or an
    exception, and in both cases with a state. *)
Definition M (S A : Type) : Type := S -> result A * S.

Definition ret {S A : Type} (a : A) : M S A := fun s => (Ok a, s).

Definition bind {S A B : Type} (m : M S A) (k : A -> M S B) : M S B :=
  fun s =>
    match m s with
    | (Ok a, s') => k a s'
    | (Raise e, s') => (Raise e, s')
    end.

Definition lift {S A : Type} (r : result A) : M S A := fun s => (r, s).

Declare Scope py_scope.
Delimit Scope py_scope with py.
Notation "x <- m ;; k" := (bind m (fun x => k))
  (at level 61, m at next level, right associativity) : py_scope.
Notation "m ;; k" := (bind m (fun _ => k))
  (at level 61, right associativity) : py_scope.

(** The same sequencing for expressions that touch no state. *)
Definition rbind {A B : Type} (r : result A) (k : A -> result B) : result B :=
  match r with
  | Ok a => k a
  | Raise e => Raise e
  end.

Notation "'let?' x ':=' r 'in' k" := (rbind r (fun x => k))
  (at level 10, x name, r at level 100, k at level 200) : py_scope.

(** [for x in l: body]. *)
Fixpoint for_each {S A : Type} (l : list A) (body : A -> M S unit) : M S unit :=
  match l with
  | [] => ret tt
  | x :: l' => bind (body x) (fun _ => for_each l' body)
  end.

(** ** Builtins on floats *)

Definition len {A : Type} (l : list A) : nat := List.length l.

(** [float(n)] for a list length. *)
Definition float_of_nat (n : nat) : float :=
  PrimFloat.of_uint63 (Uint63.of_Z (Z.of_nat n)).

(** [min(l)]: the first item is the candidate, and a later item replaces it
    when [item < candidate]. *)
Definition min_step (best item : float) : float :=
  if (item <? best)%float then item else best.

Definition py_min (l : list float) : result float :=
  match l with
  | [] => Raise ValueError
  | x :: l' => Ok (fold_left min_step l' x)
  end.

(** [max(l)]: a later item replaces the candidate when [item > candidate]. *)
Definition max_step (best item : float) : float :=
  if (best <? item)%float then item else best.

Definition py_max (l : list float) : result float :=
  match l with
  | [] => Raise ValueError
  | x :: l' => Ok (fold_left max_step l' x)
  end.

(** [sum(l)]: from [0], adding the items from left to right. *)
Definition py_sum (l : list float) : float :=
  fold_left PrimFloat.add l 0%float.

(** [sum(l)] as CPython computes it from version 3.12 on: the same
    additions, with Neumaier's compensation term added at the end when it
    is finite and not zero. *)
Definition neumaier_step (acc : float * float) (x : float) : float * float :=
  let (f_result, c) := acc in
  let t := (f_result + x)%float in
  if (abs x <=? abs f_result)%float
  then (t, (c + ((f_result - t) + x))%float)
  else (t, (c + ((x - t) + f_result))%float).

Definition py_sum_compensated (l : list float) : float :=
  let (f_result, c) := fold_left neumaier_step l (0%float, 0%float) in
  if negb (c =? 0)%float && is_finite c then (f_result + c)%float else f_result.

(** [x / n] for a float [x] and an int [n]. *)
Definition truediv (x : float) (n : nat) : result float :=
  if Nat.eqb n 0 then Raise ZeroDivisionError
  else Ok (x / float_of_nat n)%float.

(** ** Builtins on strings *)

Definition newline : string := String (ascii_of_nat 10) EmptyString.

Fixpoint spaces (n : nat) : string :=
  match n with
  | O => EmptyString
  | S n' => String " " (spaces n')
  end.

(** [f"{s:>w}"] and [f"{s:<w}"]. *)
Definition rjust (w : nat) (s : string) : string :=
  spaces (w - String.length s) ++ s.

Definition ljust (w : nat) (s : string) : string :=
  s ++ spaces (w - String.length s).

(** ** dict with string keys *)

Section Dict.
Variable V : Type.

Definition dict : Type := list (string * V).

Definition dict_keys (d : dict) : list string := map fst d.

(** [k in d] *)
Fixpoint dict_contains (k : string) (d : dict) : bool :=
  match d with
  | [] => false
  | (k', _) :: d' => if String.eqb k' k then true else dict_contains k d'
  end.

Fixpoint dict_lookup (k : string) (d : dict) : option V :=
  match d with
  | [] => None
  | (k', v) :: d' => if String.eqb k' k then Some v else dict_lookup k d'
  end.

(** [d[k]] *)
Definition dict_getitem (d : dict) (k : string) : result V :=
  match dict_lookup k d with
  | Some v => Ok v
  | None => Raise KeyError
  end.

(** [d[k] = v]: a key already present keeps its position. *)
Fixpoint dict_setitem (k : string) (v : V) (d : dict) : dict :=
  match d with
  | [] => [(k, v)]
  | (k', v') :: d' =>
      if String.eqb k' k then (k', v) :: d'
      else (k', v') :: dict_setitem k v d'
  end.
End Dict.

Arguments dict_keys {V} d.
Arguments dict_contains {V} k d.
Arguments dict_lookup {V} k d.
Arguments dict_getitem {V} d k.
Arguments dict_setitem {V} k v d.

(** ** set of strings

    A set is represented by its elements in the order they were first
    added. *)

Definition pyset : Type := list string.

Fixpoint set_mem (x : string) (s : pyset) : bool :=
  match s with
  | [] => false
  | y :: s' => if String.eqb y x then true else set_mem x s'
  end.

(** [s.add(x)] *)
Definition set_add (x : string) (s : pyset) : pyset :=
  if set_mem x s then s else s ++ [x].

(** ** Standard output *)

(** What is written to standard output: text, or a float formatted with
    [:>w.2f], whose digits are not expanded here. *)
Inductive chunk : Type :=
| Text (s : string)
| Float2f (width : nat) (x : float).

Definition stdout : Type := list chunk.

(** [print(s, end=e)] *)
Definition print (s e : string) : M stdout unit :=
  fun out => (Ok tt, out ++ [Text (s ++ e)]).

(** [print(f"{x:>w.2f}", end="")] *)
Definition print_float2f (w : nat) (x : float) : M stdout unit :=
  fun out => (Ok tt, out ++ [Float2f w x]).

(** [str(n)] for a natural number. *)
Definition str_of_nat (n : nat) : string :=
  NilEmpty.string_of_uint (Nat.to_uint n).

(** ** The data set *)

(** [Stats]: the index of each statistic in the tuple that
    [_cross_table_statistics] returns. *)
Inductive Stats : Type := MIN | AVG | MAX.

Definition value (stat : Stats) : nat :=
  match stat with
  | MIN => 0
  | AVG => 1
  | MAX => 2
  end.

(** A row of [_data]: zip code, time of day, concentration. *)
Definition reading : Type := string * string * float.

Definition row0 (row : reading) : string := fst (fst row).
Definition row1 (row : reading) : string := snd (fst row).
Definition row2 (row : reading) : float := snd row.

Definition stats_tuple : Type := float * float * float.

(** [t[i]] on a 3-tuple. *)
Definition tuple_index (t : stats_tuple) (i : nat) : result float :=
  match t, i with
  | (a, _, _), 0 => Ok a
  | (_, b, _), 1 => Ok b
  | (_, _, c), 2 => Ok c
  | _, _ => Raise IndexError
  end.

(** The attributes of a [DataSet] object.  [_data] is [None] until a load
    assigns a list to it. *)
Record DataSet : Type := mkDataSet {
  _header : string;
  _data : option (list reading);
  _zips : dict bool;
  _times : list string
}.

Definition with_header (h : string) (self : DataSet) : DataSet :=
  mkDataSet h (_data self) (_zips self) (_times self).

Definition with_data (d : option (list reading)) (self : DataSet) : DataSet :=
  mkDataSet (_header self) d (_zips self) (_times self).

Definition with_zips (z : dict bool) (self : DataSet) : DataSet :=
  mkDataSet (_header self) (_data self) z (_times self).

Definition with_times (t : list string) (self : DataSet) : DataSet :=
  mkDataSet (_header self) (_data self) (_zips self) t.

(** [header.setter] *)
Definition header_set (header : string) : M DataSet unit :=
  fun self =>
    if Nat.leb (String.length header) 30
    then (Ok tt, with_header header self)
    else (Raise ValueError, self).

(** [header] (the property) *)
Definition header_get (self : DataSet) : string := _header self.

(** [__init__]: the header goes through the setter, so a header that is
    too long raises and no object is built. *)
Definition __init__ (header : string) : result DataSet :=
  match header_set header (mkDataSet "" None [] []) with
  | (Ok _, self) => Ok (with_times [] (with_zips [] (with_data None self)))
  | (Raise e, _) => Raise e
  end.

(** [not isinstance(self._data, list) or len(self._data) == 0] *)
Definition no_data (self : DataSet) : bool :=
  match _data self with
  | None => true
  | Some data => Nat.eqb (len data) 0
  end.

Definition row_matches (descriptor_one descriptor_two : string)
    (row : reading) : bool :=
  String.eqb (row0 row) descriptor_one && String.eqb (row1 row) descriptor_two.

(** [_cross_table_statistics] *)
Definition _cross_table_statistics (self : DataSet)
    (descriptor_one descriptor_two : string) : result stats_tuple :=
  match _data self with
  | None => Raise EmptyDatasetError
  | Some data =>
      if Nat.eqb (len data) 0 then Raise EmptyDatasetError
      else
        let matched_data :=
          map row2 (filter (row_matches descriptor_one descriptor_two) data) in
        if Nat.eqb (len matched_data) 0 then Raise NoMatchingItems
        else
          (let? mn := py_min matched_data in
           let? avg := truediv (py_sum matched_data) (len matched_data) in
           let? mx := py_max matched_data in
           Ok (mn, avg, mx))%py
  end.

(** The rows that [load_default_data] assigns. *)
Definition default_data : list reading :=
  [ ("12345", "Morning", 1.1%float);
    ("94022", "Morning", 2.2%float);
    ("94040", "Morning", 3.0%float);
    ("94022", "Midday", 1.0%float);
    ("94040", "Morning", 1.0%float);
    ("94022", "Evening", 3.2%float) ].

(** [get_data]: [[None]] before any load, else a copy of the list. *)
Definition get_data (self : DataSet) : list (option reading) :=
  match _data self with
  | None => [None]
  | Some data => map Some data
  end.

(** [get_zips] *)
Definition get_zips (self : DataSet) : dict bool := _zips self.

(** [toggle_zip] *)
Definition toggle_zip (target_zip : string) : M DataSet unit :=
  fun self =>
    if negb (dict_contains target_zip (_zips self))
    then (Raise LookupError, self)
    else
      match dict_getitem (_zips self) target_zip with
      | Ok b => (Ok tt, with_zips (dict_setitem target_zip (negb b) (_zips self)) self)
      | Raise e => (Raise e, self)
      end.

(** ** Loading *)

Section Loading.
(** [list(times)]: the order in which a set of strings is enumerated.
    It depends on the hash values of the process, not on the program. *)
Variable list_of_set : pyset -> list string.

(** The body of the loop of [_initialize_labels], on the local variables
    [zips] and [times]. *)
Definition labels_step (acc : dict bool * pyset) (row : reading)
    : dict bool * pyset :=
  (dict_setitem (row0 row) true (fst acc), set_add (row1 row) (snd acc)).

(** [_initialize_labels]; iterating over [None] is a [TypeError]. *)
Definition _initialize_labels : M DataSet unit :=
  fun self =>
    match _data self with
    | None => (Raise TypeError, self)
    | Some data =>
        let acc := fold_left labels_step data ([], []) in
        (Ok tt, with_times (list_of_set (snd acc)) (with_zips (fst acc) self))
    end.

(** What both loaders do once they have their rows:
    [self._data = rows; self._initialize_labels()]. *)
Definition load (rows : list reading) : M DataSet unit :=
  fun self => _initialize_labels (with_data (Some rows) self).

(** [load_default_data] *)
Definition load_default_data : M DataSet unit := load default_data.

(** [float(s)] on a field of the file. *)
Variable py_float : string -> result float.

(** [row[i]] on a row of the csv reader. *)
Definition row_index (row : list string) (i : nat) : result string :=
  match nth_error row i with
  | Some x => Ok x
  | None => Raise IndexError
  end.

(** The list comprehension of [load_file]: the rows of the reader in
    order, without those whose second field is the column title. *)
Fixpoint read_rows (csvreader : list (list string)) : result (list reading) :=
  match csvreader with
  | [] => Ok []
  | row :: rest =>
      (let? zip := row_index row 1 in
       if negb (String.eqb zip "Approximate Zip Code") then
         let? r1 := row_index row 1 in
         let? r4 := row_index row 4 in
         let? r5 := row_index row 5 in
         let? x := py_float r5 in
         let? tl := read_rows rest in
         Ok ((r1, r4, x) :: tl)
       else read_rows rest)%py
  end.

(** [load_file], on the content of the file ([None]: it cannot be
    opened).  The state is the object and standard output. *)
Definition load_file (file : option (list (list string)))
    : M (DataSet * stdout) unit :=
  fun w =>
    let (self, out) := w in
    match file with
    | None => (Raise FileNotFoundError, w)
    | Some csvreader =>
        match read_rows csvreader with
        | Raise e => (Raise e, w)
        | Ok rows =>
            match load rows self with
            | (Raise e, self') => (Raise e, (self', out))
            | (Ok _, self') =>
                let (r, out') :=
                  print (str_of_nat (len rows) ++ " lines loaded.") newline out in
                (r, (self', out'))
            end
        end
    end.
End Loading.

(** ** The cross table *)

(** [try: ... except NoMatchingItems: min_max_avg = "N/A"]: the variable
    holds the tuple or the string. *)
Definition except_NoMatchingItems (r : result stats_tuple)
    : result (stats_tuple + string) :=
  match r with
  | Ok t => Ok (inl t)
  | Raise NoMatchingItems => Ok (inr "N/A")
  | Raise e => Raise e
  end.

(** The body of the inner loop of [display_cross_table]. *)
Definition display_cell (self : DataSet) (stat : Stats)
    (zip_code time_of_day : string) : M stdout unit :=
  (min_max_avg <- lift (except_NoMatchingItems
                          (_cross_table_statistics self zip_code time_of_day)) ;;
   match min_max_avg with
   | inr _ => print (rjust 8 "N/A") ""
   | inl t =>
       x <- lift (tuple_index t (value stat)) ;;
       print_float2f 8 x
   end)%py.

(** The body of the outer loop of [display_cross_table]. *)
Definition display_row (self : DataSet) (stat : Stats) (zip_code : string)
    : M stdout unit :=
  (active <- lift (dict_getitem (_zips self) zip_code) ;;
   if negb active then ret tt
   else
     print (ljust 7 zip_code) "" ;;
     for_each (_times self) (display_cell self stat zip_code) ;;
     print "" newline)%py.

(** [display_cross_table] *)
Definition display_cross_table (stat : Stats) (self : DataSet) : M stdout unit :=
  if no_data self
  then print "No data is loaded. Please load the data set." newline
  else
    (print "" newline ;;
     print "       " "" ;;
     for_each (_times self) (fun time_of_day => print (rjust 8 time_of_day) "") ;;
     print "" newline ;;
     for_each (dict_keys (_zips self)) (display_row self stat))%py.

(** ** Sequences of calls *)

(** The calls that can change a [DataSet]: a completed load of some rows,
    an assignment to [header], a toggle. *)
Inductive call : Type :=
| CallLoad (rows : list reading)
| CallSetHeader (text : string)
| CallToggleZip (zip : string).

Definition is_load (c : call) : bool :=
  match c with
  | CallLoad _ => true
  | _ => false
  end.

Section Run.
Variable list_of_set : pyset -> list string.

(** The object after a call, whether it returned or raised. *)
Definition exec (c : call) (self : DataSet) : DataSet :=
  match c with
  | CallLoad rows => snd (load list_of_set rows self)
  | CallSetHeader text => snd (header_set text self)
  | CallToggleZip zip => snd (toggle_zip zip self)
  end.

Definition run (calls : list call) (self : DataSet) : DataSet :=
  fold_left (fun s c => exec c s) calls self.
End Run.

(** ** List objects

    Where the identity of a list matters, the list objects live in a heap
    and an attribute holds the address of one.  [get_data] builds a new
    object in both branches: the display [[None]], and [self._data.copy()]. *)

Definition heap : Type := list (list (option reading)).

Definition heap_alloc (l : list (option reading)) (h : heap) : nat * heap :=
  (List.length h, h ++ [l]).

Definition heap_read (r : nat) (h : heap) : option (list (option reading)) :=
  nth_error h r.

(** An assignment through the reference [r], such as [r[i] = x] or
    [r.append(x)]: the object at [r] becomes [l]. *)
Fixpoint heap_write (r : nat) (l : list (option reading)) (h : heap)
    {struct h} : heap :=
  match h, r with
  | [], _ => []
  | _ :: h', O => l :: h'
  | x :: h', S r' => x :: heap_write r' l h'
  end.

Definition get_data_ref (data : option nat) (h : heap) : option (nat * heap) :=
  match data with
  | None => Some (heap_alloc [None] h)
  | Some r =>
      match heap_read r h with
      | Some l => Some (heap_alloc l h)
      | None => None
      end
  end.

(** ** Objects and calls to evaluate on *)

(** A new object, and three calls on it. *)
Definition new_dataset : DataSet := mkDataSet "PurpleAir" None [] [].

Definition example_calls : list call :=
  [CallSetHeader "x"; CallLoad default_data; CallToggleZip "94022"].


(** The object after [load_default_data], with the times enumerated in
    the order they were added. *)
Definition default_dataset : DataSet :=
  mkDataSet "" (Some default_data)
    [("12345", true); ("94022", true); ("94040", true)]
    ["Morning"; "Midday"; "Evening"].

(** Three readings of 0.1 for one zip code and one time of day. *)
Definition tenths : list reading :=
  [ ("94022", "Morning", 0.1%float);
    ("94022", "Morning", 0.1%float);
    ("94022", "Morning", 0.1%float) ].

Definition tenths_dataset : DataSet :=
  mkDataSet "" (Some tenths) [("94022", true)] ["Morning"].

(** ** What the statements below speak of *)

(** A reading matches a zip code and a time of day when both fields are
    equal to them, as strings. *)
Definition matches (zip time : string) (row : reading) : Prop :=
  row0 row = zip /\ row1 row = time.

(** The concentrations of the matching readings, in the order of the
    readings. *)
Fixpoint matching_values (data : list reading) (zip time : string)
    : list float :=
  match data with
  | [] => []
  | row :: rest =>
      if string_dec (row0 row) zip then
        if string_dec (row1 row) time
        then row2 row :: matching_values rest zip time
        else matching_values rest zip time
      else matching_values rest zip time
  end.

(** A minimum of a list for the comparison of floats: one of its items,
    with no item strictly below it.  Likewise a maximum. *)
Definition is_minimum (m : float) (l : list float) : Prop :=
  In m l /\ forall v, In v l -> (v <? m)%float = false.

Definition is_maximum (m : float) (l : list float) : Prop :=
  In m l /\ forall v, In v l -> (m <? v)%float = false.

(** The mean in floating point: the items are added from left to right,
    starting from zero, and the sum is divided by their number. *)
Definition float_mean (l : list float) : float :=
  (fold_left PrimFloat.add l 0 / float_of_nat (List.length l))%float.

(** No load has occurred, or the loaded list has no row. *)
Definition unloaded_or_empty (self : DataSet) : Prop :=
  _data self = None \/ _data self = Some [].

(** The distinct items of a list, in the order of their first occurrence. *)
Fixpoint first_seen (l : list string) : list string :=
  match l with
  | [] => []
  | x :: l' => x :: filter (fun y => negb (String.eqb x y)) (first_seen l')
  end.

(** The rows of the last load among the calls, if any. *)
Definition last_load (calls : list call) : option (list reading) :=
  fold_left (fun acc c => match c with CallLoad rows => Some rows | _ => acc end)
    calls None.

(** An entry of the mapping for an active zip code. *)
Definition flagged (zip : string) : string * bool := (zip, true).

(** A zip code is active when the mapping has it with the flag [True]. *)
Definition is_active (self : DataSet) (zip : string) : bool :=
  match dict_lookup zip (_zips self) with
  | Some b => b
  | None => false
  end.

(** The statistic of a tuple that [stat] selects. *)
Definition select (stat : Stats) (t : stats_tuple) : float :=
  match stat, t with
  | MIN, (mn, _, _) => mn
  | AVG, (_, avg, _) => avg
  | MAX, (_, _, mx) => mx
  end.

(** A cell of the cross table, a row, and the table. *)
Definition cell_of (self : DataSet) (stat : Stats) (zip time : string) : chunk :=
  match _cross_table_statistics self zip time with
  | Ok t => Float2f 8 (select stat t)
  | Raise _ => Text "     N/A"
  end.

Definition row_of (self : DataSet) (stat : Stats) (zip : string) : list chunk :=
  Text (ljust 7 zip) :: map (cell_of self stat zip) (_times self) ++ [Text newline].

Definition heading_of (self : DataSet) : list chunk :=
  Text newline :: Text "       "
    :: map (fun time => Text (rjust 8 time)) (_times self) ++ [Text newline].

Definition table_of (self : DataSet) (stat : Stats) : list chunk :=
  heading_of self
    ++ List.concat (map (row_of self stat)
                   (filter (is_active self) (dict_keys (_zips self)))).

(** ** The console

    [main], [menu] and [manage_filters] read lines with [input] and write
    with [print].  The lines that will be typed are part of the state;
    [input] on none left raises [EOFError]. *)

Record console : Type := mkConsole {
  my_dataset : DataSet;
  keyboard : list string;
  screen : stdout
}.

Definition with_dataset (d : DataSet) (w : console) : console :=
  mkConsole d (keyboard w) (screen w).

Definition with_keyboard (k : list string) (w : console) : console :=
  mkConsole (my_dataset w) k (screen w).

Definition with_screen (o : stdout) (w : console) : console :=
  mkConsole (my_dataset w) (keyboard w) o.

(** How a call at the console ends: it returns, or an exception of
    [exn] or [EOFError] goes up.  [OutOfFuel] is for the loops below,
    which count their iterations; it is shown never to occur. *)
Inductive outcome (A : Type) : Type :=
| Returned (a : A)
| Uncaught (e : exn)
| UncaughtEOF
| OutOfFuel.

Arguments Returned {A} a.
Arguments Uncaught {A} e.
Arguments UncaughtEOF {A}.
Arguments OutOfFuel {A}.

Definition IO (A : Type) : Type := console -> outcome A * console.

Definition io_ret {A : Type} (a : A) : IO A := fun w => (Returned a, w).

Definition io_bind {A B : Type} (m : IO A) (k : A -> IO B) : IO B :=
  fun w =>
    match m w with
    | (Returned a, w') => k a w'
    | (Uncaught e, w') => (Uncaught e, w')
    | (UncaughtEOF, w') => (UncaughtEOF, w')
    | (OutOfFuel, w') => (OutOfFuel, w')
    end.

Declare Scope io_scope.
Delimit Scope io_scope with io.
Notation "x <- m ;; k" := (io_bind m (fun x => k))
  (at level 61, m at next level, right associativity) : io_scope.
Notation "m ;; k" := (io_bind m (fun _ => k))
  (at level 61, right associativity) : io_scope.

Definition of_result {A : Type} (r : result A) : outcome A :=
  match r with
  | Ok a => Returned a
  | Raise e => Uncaught e
  end.

Definition io_lift {A : Type} (r : result A) : IO A := fun w => (of_result r, w).

(** A method of the data set, called on [my_dataset]. *)
Definition on_dataset {A : Type} (m : M DataSet A) : IO A :=
  fun w => let (r, d) := m (my_dataset w) in (of_result r, with_dataset d w).

(** A computation that only writes. *)
Definition on_screen {A : Type} (m : M stdout A) : IO A :=
  fun w => let (r, o) := m (screen w) in (of_result r, with_screen o w).

Definition io_print (s e : string) : IO unit := on_screen (print s e).

(** [print(a, b)]: the two arguments with a space between them. *)
Definition io_print2 (a b : string) : IO unit :=
  io_print (a ++ " " ++ b) newline.

(** [input(prompt)] *)
Definition input (prompt : string) : IO string :=
  (io_print prompt "" ;;
   fun w =>
     match keyboard w with
     | [] => (UncaughtEOF, w)
     | line :: rest => (Returned line, with_keyboard rest w)
     end)%io.

Fixpoint io_for_each {A : Type} (l : list A) (body : A -> IO unit) : IO unit :=
  match l with
  | [] => io_ret tt
  | x :: l' => io_bind (body x) (fun _ => io_for_each l' body)
  end.

(** [enumerate(l, start)] *)
Fixpoint enumerate {A : Type} (start : nat) (l : list A) : list (nat * A) :=
  match l with
  | [] => []
  | x :: l' => (start, x) :: enumerate (S start) l'
  end.

(** [print_menu] *)
Definition print_menu : IO unit :=
  (io_print "Main Menu" newline ;;
   io_print "1 - Print Average Particulate Concentration by Zip Code and Time" newline ;;
   io_print "2 - Print Minimum Particulate Concentration by Zip Code and Time" newline ;;
   io_print "3 - Print Maximum Particulate Concentration by Zip Code and Time" newline ;;
   io_print "4 - Adjust Zip Code Filters" newline ;;
   io_print "5 - Load Data" newline ;;
   io_print "9 - Quit" newline)%io.

Section Console.
(** [int(s)] on a typed line: [None] when it raises [ValueError]. *)
Variable py_int : string -> option Z.

(** The line that [manage_filters] writes for a label. *)
Definition print_label (gotten_zips : dict bool) (item : nat * string) : IO unit :=
  let (i, zips) := item in
  (flag <- io_lift (dict_getitem gotten_zips zips) ;;
   io_print (str_of_nat i ++ ": " ++ ljust 11 zips
             ++ (if flag then "ACTIVE" else "INACTIVE")) newline)%io.

(** The second loop of [manage_filters]; its value is [found]. *)
Fixpoint toggle_selected (items : list (nat * string)) (selected_zip : Z)
    : IO bool :=
  match items with
  | [] => io_ret false
  | (i, zips) :: rest =>
      if Z.eqb (Z.of_nat i) selected_zip
      then (on_dataset (toggle_zip zips) ;; io_ret true)%io
      else toggle_selected rest selected_zip
  end.

(** The [while True] loop of [manage_filters]. *)
Fixpoint manage_filters_loop (fuel : nat) : IO unit :=
  match fuel with
  | O => fun w => (OutOfFuel, w)
  | S fuel' =>
      (io_print "The following labels are in the data set:" newline ;;
       gotten_zips <- (fun w => (Returned (get_zips (my_dataset w)), w)) ;;
       io_for_each (enumerate 1 (dict_keys gotten_zips)) (print_label gotten_zips) ;;
       selected_zip <- input ("Please select an item to toggle or press "
                              ++ "enter/return when you are finished.") ;;
       if String.eqb selected_zip "" then io_ret tt
       else
         match py_int selected_zip with
         | None =>
             io_print "Please enter a number next time." newline ;;
             manage_filters_loop fuel'
         | Some n =>
             found <- toggle_selected (enumerate 1 (dict_keys gotten_zips)) n ;;
             (if negb found
              then io_print ("That is not a valid selection. Please choose "
                             ++ "something else.") newline
              else io_ret tt) ;;
             manage_filters_loop fuel'
         end)%io
  end.

(** [manage_filters].  [get_data()] is a list, so the test is that of its
    first item, which an empty list does not have. *)
Definition manage_filters : IO unit :=
  fun w =>
    match get_data (my_dataset w) with
    | [] => (Uncaught IndexError, w)
    | None :: _ => io_print "No data is loaded. Please load the data set." newline w
    | Some _ :: _ => manage_filters_loop (S (List.length (keyboard w))) w
    end.

Variable list_of_set : pyset -> list string.
Variable py_float : string -> result float.
(** The content of [./purple_air.csv] ([None]: it cannot be opened). *)
Variable file : option (list (list string)).

(** [valid_menu_options]: the keys 1 to 5 and what they call. *)
Definition valid_menu_options (n : Z) : option (IO unit) :=
  match n with
  | 1%Z => Some (fun w =>
             let (r, o) := display_cross_table AVG (my_dataset w) (screen w) in
             (of_result r, with_screen o w))
  | 2%Z => Some (fun w =>
             let (r, o) := display_cross_table MIN (my_dataset w) (screen w) in
             (of_result r, with_screen o w))
  | 3%Z => Some (fun w =>
             let (r, o) := display_cross_table MAX (my_dataset w) (screen w) in
             (of_result r, with_screen o w))
  | 4%Z => Some manage_filters
  | 5%Z => Some (fun w =>
             let '(r, (d, o)) :=
               load_file list_of_set py_float file (my_dataset w, screen w) in
             (of_result r, with_screen o (with_dataset d w)))
  | _ => None
  end.

(** The [while True] loop of [menu]. *)
Fixpoint menu_loop (fuel : nat) : IO unit :=
  match fuel with
  | O => fun w => (OutOfFuel, w)
  | S fuel' =>
      (header <- (fun w => (Returned (header_get (my_dataset w)), w)) ;;
       io_print header newline ;;
       print_menu ;;
       number_selected <- input "What is your choice? " ;;
       match py_int number_selected with
       | None =>
           io_print2 "Please enter a number next time." newline ;;
           menu_loop fuel'
       | Some number_as_int =>
           if Z.eqb number_as_int 9
           then io_print2 "Exiting database. Goodbye." newline
           else
             match valid_menu_options number_as_int with
             | Some option =>
                 option ;; io_print "" newline ;; menu_loop fuel'
             | None =>
                 io_print2 ("That is not a valid selection. Please choose "
                            ++ "something else.") newline ;;
                 menu_loop fuel'
             end
       end)%io
  end.

(** [menu] *)
Definition menu : IO unit :=
  fun w => menu_loop (S (List.length (keyboard w))) w.

(** The [while True] loop of [main]: [ValueError] is caught, and the
    header asked again. *)
Fixpoint header_loop (fuel : nat) : IO unit :=
  match fuel with
  | O => fun w => (OutOfFuel, w)
  | S fuel' =>
      (text <- input "Now please enter a header for the menu: " ;;
       fun w =>
         match header_set text (my_dataset w) with
         | (Ok _, d) => (Returned tt, with_dataset d w)
         | (Raise ValueError, d) =>
             (io_print "Header must a string that is at most 30 characters long."
                newline ;;
              header_loop fuel') (with_dataset d w)
         | (Raise e, d) => (Uncaught e, with_dataset d w)
         end)%io
  end.

(** [main]; [purple_air] is [my_dataset]. *)
Definition main : IO unit :=
  (user_name <- input "Please enter your name: " ;;
   io_print ("Hello " ++ user_name ++ ", welcome to the Air Quality database.")
     newline ;;
   purple_air <- io_lift (__init__ "") ;;
   (fun w => (Returned tt, with_dataset purple_air w)) ;;
   (fun w => header_loop (S (List.length (keyboard w))) w) ;;
   io_print newline newline ;;
   menu)%io.
End Console.

(** The program started with the lines [typed] to come. *)
Definition start (typed : list string) : console :=
  mkConsole (mkDataSet "" None [] []) typed [].

(** A reading of decimal numerals, to evaluate with: [int] accepts these
    and more. *)
Fixpoint digits_value (s : string) (acc : Z) : option Z :=
  match s with
  | EmptyString => Some acc
  | String c s' =>
      let n := nat_of_ascii c in
      if (48 <=? n)%nat && (n <=? 57)%nat
      then digits_value s' (10 * acc + Z.of_nat (n - 48))%Z
      else None
  end.

Definition digits_int (s : string) : option Z :=
  match s with
  | EmptyString => None
  | _ => digits_value s 0%Z
  end.

(** ** What the further statements speak of *)

(** The readings of an object: none before a load. *)
Definition data_rows (self : DataSet) : list reading :=
  match _data self with
  | Some data => data
  | None => []
  end.

(** A row of the file that is not the row of the column titles. *)
Definition is_data_row (row : list string) : bool :=
  match nth_error row 1 with
  | Some zip => negb (String.eqb zip "Approximate Zip Code")
  | None => false
  end.

(** The reading that a row of the file gives: its second and fifth
    fields, and the float that its sixth field denotes. *)
Definition reading_of_row (py_float : string -> result float)
    (row : list string) (r : reading) : Prop :=
  exists zip time field x,
    nth_error row 1 = Some zip /\ nth_error row 4 = Some time
    /\ nth_error row 5 = Some field /\ py_float field = Ok x
    /\ r = (zip, time, x).

(** Whether the key [k] is active once [zip] has been toggled. *)
Definition active_after_toggle (self : DataSet) (zip k : string) : bool :=
  if String.eqb k zip then negb (is_active self zip) else is_active self k.

(** The labels agree with the readings. *)
Definition labels_agree (self : DataSet) : Prop :=
  dict_keys (_zips self) = first_seen (map row0 (data_rows self))
  /\ Permutation (_times self) (first_seen (map row1 (data_rows self))).

(** Two objects that differ at most in the flags of the mapping. *)
Definition same_but_flags (d d' : DataSet) : Prop :=
  _header d' = _header d /\ _data d' = _data d /\ _times d' = _times d
  /\ dict_keys (_zips d') = dict_keys (_zips d).

(** The key that the number [n] selects in the list that
    [manage_filters] shows: the [n]-th, counting from 1. *)
Definition selected_key (keys : list string) (n : Z) : option string :=
  if (1 <=? n)%Z then nth_error keys (Z.to_nat (n - 1)) else None.

(** The lines typed to [manage_filters] up to the first empty one have
    one: the loop ends there.  The lines after it stay to be read. *)
Fixpoint has_blank (typed : list string) : bool :=
  match typed with
  | [] => false
  | line :: rest => if String.eqb line "" then true else has_blank rest
  end.

Fixpoint after_blank (typed : list string) : list string :=
  match typed with
  | [] => []
  | line :: rest => if String.eqb line "" then rest else after_blank rest
  end.

(** The object after the lines typed to [manage_filters]: a line that is
    a number selecting a key toggles that key, any other line changes
    nothing, and the first empty line ends it. *)
Fixpoint filters_after (py_int : string -> option Z) (typed : list string)
    (self : DataSet) : DataSet :=
  match typed with
  | [] => self
  | line :: rest =>
      if String.eqb line "" then self
      else
        match py_int line with
        | None => filters_after py_int rest self
        | Some n =>
            match selected_key (dict_keys (_zips self)) n with
            | Some zip => filters_after py_int rest (snd (toggle_zip zip self))
            | None => filters_after py_int rest self
            end
        end
  end.

(** A file of a title row and two readings, and a session at the
    console, to evaluate on. *)
Definition example_file : option (list (list string)) :=
  Some [ ["t"; "Approximate Zip Code"; "x"; "y"; "Time Of Day"; "PM2.5"];
         ["1"; "94022"; "x"; "y"; "Night"; "1.5"];
         ["2"; "94028"; "x"; "y"; "Night"; "1.5"] ].

Definition example_session : list string :=
  ["Owen"; "A header of more than 30 characters"; "The Last Header :D";
   "4"; "5"; "1"; "4"; "2"; "x"; "7"; ""; "3"; "9"; "never read"].

(** * Properties *)

(** ** The order of binary64 numbers *)

Section FloatOrder.
Local Open Scope float_scope.

Local Ltac split_compare :=
  repeat match goal with
  | |- context [Z.compare ?a ?b] => destruct (Z.compare_spec a b)
  | |- context [Pos.compare_cont Eq ?a ?b] =>
      change (Pos.compare_cont Eq a b) with (Pos.compare a b);
      destruct (Pos.compare_spec a b)
  end.

Local Ltac order_cases :=
  unfold SFltb, SFleb, SFeqb, SFcompare;
  repeat match goal with
  | b : bool |- _ => destruct b
  end;
  try (intros; simpl in *; (discriminate || reflexivity || congruence));
  split_compare; simpl; intros; subst;
  try discriminate; try reflexivity; try congruence; try lia.

Lemma SFltb_irrefl x : SFltb x x = false.
Proof. destruct x; order_cases. Qed.

Lemma SFltb_trans x y z :
  SFltb x y = true -> SFltb y z = true -> SFltb x z = true.
Proof. destruct x, y, z; order_cases. Qed.

Lemma SFleb_trans x y z :
  SFleb x y = true -> SFleb y z = true -> SFleb x z = true.
Proof. destruct x, y, z; order_cases. Qed.

Lemma SFleb_of_not_ltb x y :
  x <> S754_nan -> y <> S754_nan -> SFltb x y = false -> SFleb y x = true.
Proof. destruct x, y; order_cases. Qed.

Lemma SFeqb_refl x : x <> S754_nan -> SFeqb x x = true.
Proof. destruct x; order_cases. Qed.

Lemma ltb_irrefl (x : float) : (x <? x) = false.
Proof. rewrite ltb_spec. apply SFltb_irrefl. Qed.

Lemma ltb_trans (x y z : float) :
  (x <? y) = true -> (y <? z) = true -> (x <? z) = true.
Proof. rewrite !ltb_spec. apply SFltb_trans. Qed.

Lemma leb_trans (x y z : float) :
  (x <=? y) = true -> (y <=? z) = true -> (x <=? z) = true.
Proof. rewrite !leb_spec. apply SFleb_trans. Qed.

Lemma not_nan_spec (x : float) : is_nan x = false -> Prim2SF x <> S754_nan.
Proof.
  unfold is_nan. rewrite FloatAxioms.eqb_spec. intros H E. rewrite E in H. discriminate.
Qed.

Lemma leb_of_not_ltb (x y : float) :
  is_nan x = false -> is_nan y = false ->
  (x <? y) = false -> (y <=? x) = true.
Proof.
  intros Hx Hy. rewrite ltb_spec, leb_spec.
  apply SFleb_of_not_ltb; now apply not_nan_spec.
Qed.

(** An item that is not below [y] is not below anything under [y]. *)
Lemma not_ltb_below (v x y : float) :
  (v <? y) = false -> (x <? y) = true -> (v <? x) = false.
Proof.
  intros Hv Hx. destruct (v <? x) eqn:E; [ | reflexivity ].
  rewrite (ltb_trans _ _ _ E Hx) in Hv. discriminate.
Qed.

Lemma not_ltb_above (v x y : float) :
  (y <? v) = false -> (y <? x) = true -> (x <? v) = false.
Proof.
  intros Hv Hx. destruct (x <? v) eqn:E; [ | reflexivity ].
  rewrite (ltb_trans _ _ _ Hx E) in Hv. discriminate.
Qed.
End FloatOrder.

(** ** [min], [max] *)

Section MinMax.
Local Open Scope float_scope.

Lemma min_fold_In (l : list float) (b : float) :
  In (fold_left min_step l b) (b :: l).
Proof.
  revert b. induction l as [ | x l IH ]; intros b; simpl.
  - now left.
  - specialize (IH (min_step b x)). unfold min_step in *.
    destruct (x <? b); simpl in IH; tauto.
Qed.

Lemma min_fold_keeps (l : list float) (b v : float) :
  (v <? b) = false -> (v <? fold_left min_step l b) = false.
Proof.
  revert b. induction l as [ | x l IH ]; intros b Hv; simpl; [ exact Hv | ].
  apply IH. unfold min_step. destruct (x <? b) eqn:E; [ | exact Hv ].
  exact (not_ltb_below _ _ _ Hv E).
Qed.

Lemma min_fold_lower (l : list float) (b v : float) :
  In v (b :: l) -> (v <? fold_left min_step l b) = false.
Proof.
  revert b. induction l as [ | x l IH ]; intros b Hin.
  - simpl in *. destruct Hin as [ <- | [] ]. apply ltb_irrefl.
  - simpl. destruct Hin as [ <- | [ <- | Hin ] ].
    + apply min_fold_keeps. unfold min_step.
      destruct (x <? b) eqn:E.
      * exact (not_ltb_below _ _ _ (ltb_irrefl b) E).
      * apply ltb_irrefl.
    + apply min_fold_keeps. unfold min_step.
      destruct (x <? b) eqn:E; [ apply ltb_irrefl | exact E ].
    + apply IH. now right.
Qed.

Lemma max_fold_In (l : list float) (b : float) :
  In (fold_left max_step l b) (b :: l).
Proof.
  revert b. induction l as [ | x l IH ]; intros b; simpl.
  - now left.
  - specialize (IH (max_step b x)). unfold max_step in *.
    destruct (b <? x); simpl in IH; tauto.
Qed.

Lemma max_fold_keeps (l : list float) (b v : float) :
  (b <? v) = false -> (fold_left max_step l b <? v) = false.
Proof.
  revert b. induction l as [ | x l IH ]; intros b Hv; simpl; [ exact Hv | ].
  apply IH. unfold max_step. destruct (b <? x) eqn:E; [ | exact Hv ].
  exact (not_ltb_above _ _ _ Hv E).
Qed.

Lemma max_fold_upper (l : list float) (b v : float) :
  In v (b :: l) -> (fold_left max_step l b <? v) = false.
Proof.
  revert b. induction l as [ | x l IH ]; intros b Hin.
  - simpl in *. destruct Hin as [ <- | [] ]. apply ltb_irrefl.
  - simpl. destruct Hin as [ <- | [ <- | Hin ] ].
    + apply max_fold_keeps. unfold max_step.
      destruct (b <? x) eqn:E.
      * exact (not_ltb_above _ _ _ (ltb_irrefl b) E).
      * apply ltb_irrefl.
    + apply max_fold_keeps. unfold max_step.
      destruct (b <? x) eqn:E; [ apply ltb_irrefl | exact E ].
    + apply IH. now right.
Qed.

Lemma py_min_spec (l : list float) :
  l <> [] -> exists m, py_min l = Ok m /\ is_minimum m l.
Proof.
  destruct l as [ | x l ]; [ congruence | intros _ ].
  exists (fold_left min_step l x). split; [ reflexivity | ].
  split; [ apply min_fold_In | intros v; apply min_fold_lower ].
Qed.

Lemma py_max_spec (l : list float) :
  l <> [] -> exists m, py_max l = Ok m /\ is_maximum m l.
Proof.
  destruct l as [ | x l ]; [ congruence | intros _ ].
  exists (fold_left max_step l x). split; [ reflexivity | ].
  split; [ apply max_fold_In | intros v; apply max_fold_upper ].
Qed.

(** Without NaN, a minimum is under a maximum. *)
Lemma minimum_le_maximum (mn mx : float) (l : list float) :
  (forall v, In v l -> is_nan v = false) ->
  is_minimum mn l -> is_maximum mx l -> (mn <=? mx) = true.
Proof.
  intros Hnan [Hmn Hlow] [Hmx Hup].
  apply leb_of_not_ltb; auto.
Qed.
End MinMax.

(** ** [_cross_table_statistics] *)

Section CrossTableStatistics.
Local Open Scope float_scope.

Lemma row_matches_spec (zip time : string) (row : reading) :
  row_matches zip time row = true <-> matches zip time row.
Proof.
  unfold row_matches, matches.
  rewrite andb_true_iff, !String.eqb_eq. tauto.
Qed.

(** The list comprehension selects the values of the matching readings. *)
Lemma matched_data_spec (data : list reading) (zip time : string) :
  map row2 (filter (row_matches zip time) data) = matching_values data zip time.
Proof.
  induction data as [ | row data IH ]; [ reflexivity | ].
  simpl. unfold row_matches at 1.
  destruct (string_dec (row0 row) zip) as [ E0 | N0 ].
  - rewrite (proj2 (String.eqb_eq _ _) E0). simpl.
    destruct (string_dec (row1 row) time) as [ E1 | N1 ].
    + rewrite (proj2 (String.eqb_eq _ _) E1). simpl. now rewrite IH.
    + rewrite (proj2 (String.eqb_neq _ _) N1). exact IH.
  - rewrite (proj2 (String.eqb_neq _ _) N0). exact IH.
Qed.

Lemma matching_values_In (data : list reading) (zip time : string) (v : float) :
  In v (matching_values data zip time) <->
  exists row, In row data /\ matches zip time row /\ row2 row = v.
Proof.
  rewrite <- matched_data_spec, in_map_iff. split.
  - intros (row & Hv & Hin). apply filter_In in Hin as [Hin Hm].
    exists row. rewrite <- row_matches_spec. auto.
  - intros (row & Hin & Hm & Hv). exists row. split; [ exact Hv | ].
    apply filter_In. rewrite row_matches_spec. auto.
Qed.

Lemma matching_values_nil (data : list reading) (zip time : string) :
  matching_values data zip time = [] <->
  forall row, In row data -> ~ matches zip time row.
Proof.
  split.
  - intros E row Hin Hm.
    assert (H : In (row2 row) (matching_values data zip time))
      by (apply matching_values_In; eauto).
    rewrite E in H. exact H.
  - intros H. destruct (matching_values data zip time) as [ | v l ] eqn:E;
      [ reflexivity | exfalso ].
    assert (Hv : In v (matching_values data zip time))
      by (rewrite E; now left).
    apply matching_values_In in Hv as (row & Hin & Hm & _).
    exact (H row Hin Hm).
Qed.

Lemma len_eqb_0 {A : Type} (l : list A) : Nat.eqb (len l) 0 = true <-> l = [].
Proof. destruct l; simpl; split; congruence. Qed.

(** The three outcomes of [_cross_table_statistics], by the state of the
    data and the matching values. *)
Lemma statistics_unloaded (self : DataSet) (zip time : string) :
  unloaded_or_empty self ->
  _cross_table_statistics self zip time = Raise EmptyDatasetError.
Proof.
  unfold _cross_table_statistics. now intros [ -> | -> ].
Qed.

Lemma statistics_no_match (self : DataSet) (data : list reading)
    (zip time : string) :
  _data self = Some data -> data <> [] ->
  matching_values data zip time = [] ->
  _cross_table_statistics self zip time = Raise NoMatchingItems.
Proof.
  intros Hd Hne Hm. unfold _cross_table_statistics. rewrite Hd.
  destruct (Nat.eqb (len data) 0) eqn:E.
  - apply len_eqb_0 in E. contradiction.
  - now rewrite matched_data_spec, Hm.
Qed.

Lemma statistics_match (self : DataSet) (data : list reading)
    (zip time : string) :
  _data self = Some data ->
  matching_values data zip time <> [] ->
  exists mn mx,
    _cross_table_statistics self zip time
      = Ok (mn, float_mean (matching_values data zip time), mx)
    /\ is_minimum mn (matching_values data zip time)
    /\ is_maximum mx (matching_values data zip time).
Proof.
  intros Hd Hm. unfold _cross_table_statistics. rewrite Hd.
  destruct (Nat.eqb (len data) 0) eqn:E.
  - apply len_eqb_0 in E. subst data. now elim Hm.
  - rewrite matched_data_spec.
    destruct (py_min_spec _ Hm) as (mn & Emn & Hmn).
    destruct (py_max_spec _ Hm) as (mx & Emx & Hmx).
    exists mn, mx. split; [ | split; assumption ].
    destruct (Nat.eqb (len (matching_values data zip time)) 0) eqn:E'.
    + apply len_eqb_0 in E'. contradiction.
    + rewrite Emn, Emx. unfold truediv. rewrite E'. reflexivity.
Qed.

Lemma unloaded_or_empty_dec (self : DataSet) :
  unloaded_or_empty self \/ exists data, _data self = Some data /\ data <> [].
Proof.
  unfold unloaded_or_empty. destruct (_data self) as [ [ | row data ] | ].
  - left. now right.
  - right. eexists. split; [ reflexivity | discriminate ].
  - left. now left.
Qed.

(** An exception of [_cross_table_statistics] is one of the two. *)
Lemma statistics_raise_cases (self : DataSet) (zip time : string) (e : exn) :
  _cross_table_statistics self zip time = Raise e ->
  (e = EmptyDatasetError /\ unloaded_or_empty self)
  \/ (e = NoMatchingItems
      /\ exists data, _data self = Some data /\ data <> []
           /\ forall row, In row data -> ~ matches zip time row).
Proof.
  intros He.
  destruct (unloaded_or_empty_dec self) as [ Hu | (data & Hd & Hne) ].
  - left. rewrite (statistics_unloaded self zip time Hu) in He.
    split; [ congruence | exact Hu ].
  - right.
    destruct (matching_values data zip time) as [ | v l ] eqn:Em.
    + rewrite (statistics_no_match self data zip time Hd Hne Em) in He.
      split; [ congruence | ]. exists data. repeat split; auto.
      now apply matching_values_nil.
    + destruct (statistics_match self data zip time Hd) as (mn & mx & E & _).
      { rewrite Em. discriminate. }
      rewrite E in He. discriminate.
Qed.

(** C1: when at least one reading of a loaded data set matches the zip
    code and the time of day (equality of strings),
    [_cross_table_statistics] returns a triple: a minimum of the
    concentrations of exactly the matching readings, their mean (their
    sum divided by their number, in floating point) and a maximum of
    them.  When none of them is NaN, the minimum is under each of them
    and the maximum above. *)
Theorem cross_table_statistics_correct (self : DataSet)
    (data : list reading) (zip time : string) :
  _data self = Some data ->
  (exists row, In row data /\ matches zip time row) ->
  exists mn mx,
    _cross_table_statistics self zip time
      = Ok (mn, float_mean (matching_values data zip time), mx)
    /\ is_minimum mn (matching_values data zip time)
    /\ is_maximum mx (matching_values data zip time)
    /\ (forall v, In v (matching_values data zip time) <->
                  exists row, In row data /\ matches zip time row /\ row2 row = v)
    /\ ((forall v, In v (matching_values data zip time) -> is_nan v = false) ->
        forall v, In v (matching_values data zip time) ->
                  (mn <=? v) = true /\ (v <=? mx) = true).
Proof.
  intros Hd (row & Hin & Hm).
  assert (Hne : matching_values data zip time <> []).
  { intros E. rewrite matching_values_nil in E. exact (E row Hin Hm). }
  destruct (statistics_match self data zip time Hd Hne)
    as (mn & mx & E & Hmn & Hmx).
  exists mn, mx.
  split; [ exact E | ]. split; [ exact Hmn | ]. split; [ exact Hmx | ].
  split; [ intros v; apply matching_values_In | ].
  intros Hnan v Hv. destruct Hmn as [Imn Lmn], Hmx as [Imx Lmx].
  split; apply leb_of_not_ltb; auto.
Qed.

Lemma cross_table_statistics_correct_witness :
  exists mn mx,
    _cross_table_statistics default_dataset "94040" "Morning"
      = Ok (mn, float_mean (matching_values default_data "94040" "Morning"), mx)
    /\ is_minimum mn (matching_values default_data "94040" "Morning")
    /\ is_maximum mx (matching_values default_data "94040" "Morning")
    /\ (forall v, In v (matching_values default_data "94040" "Morning") <->
                  exists row, In row default_data
                              /\ matches "94040" "Morning" row /\ row2 row = v)
    /\ ((forall v, In v (matching_values default_data "94040" "Morning") ->
                   is_nan v = false) ->
        forall v, In v (matching_values default_data "94040" "Morning") ->
                  (mn <=? v) = true /\ (v <=? mx) = true).
Proof.
  apply (cross_table_statistics_correct default_dataset default_data
           "94040" "Morning" eq_refl).
  exists ("94040", "Morning", 3.0). split.
  - simpl. tauto.
  - split; reflexivity.
Defined.

(** C2: [_cross_table_statistics] raises [EmptyDatasetError] when no load
    has occurred or the loaded list has no row; it raises
    [NoMatchingItems] when the list has rows and none matches; and it
    raises in no other case and nothing else. *)
Theorem cross_table_statistics_failures (self : DataSet) (zip time : string) :
  (unloaded_or_empty self ->
   _cross_table_statistics self zip time = Raise EmptyDatasetError)
  /\ (forall data,
        _data self = Some data -> data <> [] ->
        (forall row, In row data -> ~ matches zip time row) ->
        _cross_table_statistics self zip time = Raise NoMatchingItems)
  /\ (forall e,
        _cross_table_statistics self zip time = Raise e ->
        (e = EmptyDatasetError /\ unloaded_or_empty self)
        \/ (e = NoMatchingItems
            /\ exists data, _data self = Some data /\ data <> []
                 /\ forall row, In row data -> ~ matches zip time row)).
Proof.
  split; [ apply statistics_unloaded | split ].
  - intros data Hd Hne Hno. apply (statistics_no_match self data); auto.
    now apply matching_values_nil.
  - apply statistics_raise_cases.
Qed.

(** The mean of three readings of 0.1 is the float above 0.1. *)
Example tenths_statistics :
  _cross_table_statistics tenths_dataset "94022" "Morning"
  = Ok (0x1.999999999999ap-4, 0x1.999999999999bp-4, 0x1.999999999999ap-4).
Proof. vm_compute. reflexivity. Qed.

(** The compensated sum gives the same mean there, and an overflowing
    sum puts the mean above the maximum with both. *)
Example tenths_compensated :
  py_sum_compensated (map row2 tenths) = py_sum (map row2 tenths).
Proof. vm_compute. reflexivity. Qed.

Example overflow_mean :
  (py_sum [0x1p1023; 0x1p1023] / float_of_nat 2 = infinity)
  /\ (py_sum_compensated [0x1p1023; 0x1p1023] / float_of_nat 2 = infinity).
Proof. split; vm_compute; reflexivity. Qed.

(** C9, as stated, fails: with three matching readings of 0.1 the mean
    is above the maximum. *)
Lemma mean_above_maximum :
  ~ (forall (self : DataSet) (data : list reading) (zip time : string)
            (mn avg mx : float),
        _data self = Some data ->
        (exists row, In row data /\ matches zip time row) ->
        _cross_table_statistics self zip time = Ok (mn, avg, mx) ->
        (mn <=? avg) = true /\ (avg <=? mx) = true).
Proof.
  intros H.
  destruct (H tenths_dataset tenths "94022" "Morning" _ _ _
              eq_refl
              (ex_intro _ ("94022", "Morning", 0.1)
                 (conj (or_introl eq_refl) (conj eq_refl eq_refl)))
              tenths_statistics) as [_ Habs].
  vm_compute in Habs. discriminate.
Qed.

(** C9, amended: when no matching reading is NaN, the minimum returned
    is under the maximum returned, and the average returned is the
    floating-point mean of the matching values (nothing is said of its
    place between them). *)
Theorem statistics_min_le_max (self : DataSet) (data : list reading)
    (zip time : string) (mn avg mx : float) :
  _data self = Some data ->
  (forall v, In v (matching_values data zip time) -> is_nan v = false) ->
  _cross_table_statistics self zip time = Ok (mn, avg, mx) ->
  (mn <=? mx) = true /\ avg = float_mean (matching_values data zip time).
Proof.
  intros Hd Hnan E.
  destruct (matching_values data zip time) as [ | v l ] eqn:Em.
  - exfalso. destruct data as [ | row data ].
    + rewrite (statistics_unloaded self zip time) in E; [ discriminate | ].
      now right.
    + rewrite (statistics_no_match self _ zip time Hd) in E;
        [ discriminate | discriminate | exact Em ].
  - destruct (statistics_match self data zip time Hd) as (mn' & mx' & E' & Hmn & Hmx).
    { rewrite Em. discriminate. }
    rewrite E' in E. injection E as <- <- <-. rewrite Em in *.
    split; [ | reflexivity ].
    exact (minimum_le_maximum _ _ _ Hnan Hmn Hmx).
Qed.

Lemma statistics_min_le_max_witness :
  (0x1.999999999999ap-4 <=? 0x1.999999999999ap-4) = true
  /\ 0x1.999999999999bp-4 = float_mean (matching_values tenths "94022" "Morning").
Proof.
  apply (statistics_min_le_max tenths_dataset tenths "94022" "Morning"
           _ _ _ eq_refl).
  - intros v Hv. simpl in Hv.
    destruct Hv as [ <- | [ <- | [ <- | [] ] ] ]; reflexivity.
  - exact tenths_statistics.
Defined.
End CrossTableStatistics.

(** ** The dictionary *)

Section DictFacts.
Context {V : Type}.
Implicit Types (d : dict V) (k : string) (v : V).

Lemma dict_contains_keys k d : dict_contains k d = true <-> In k (dict_keys d).
Proof.
  induction d as [ | [k' v'] d IH ]; simpl.
  - split; [ discriminate | tauto ].
  - destruct (String.eqb_spec k' k) as [ E | N ].
    + split; auto.
    + rewrite IH. split; [ auto | intros [ E | H ]; [ contradiction | exact H ] ].
Qed.

Lemma dict_lookup_keys k d : In k (dict_keys d) <-> exists v, dict_lookup k d = Some v.
Proof.
  induction d as [ | [k' v'] d IH ]; simpl.
  - split; [ tauto | intros [v H]; discriminate ].
  - destruct (String.eqb_spec k' k) as [ E | N ].
    + split; eauto.
    + rewrite <- IH. split; [ intros [ E | H ]; [ contradiction | exact H ] | auto ].
Qed.

Lemma dict_lookup_None k d : ~ In k (dict_keys d) <-> dict_lookup k d = None.
Proof.
  rewrite dict_lookup_keys. destruct (dict_lookup k d) as [ v | ].
  - split; [ intros H; elim H; eauto | discriminate ].
  - split; [ reflexivity | intros _ [v H]; discriminate ].
Qed.

Lemma dict_keys_setitem k v d :
  In k (dict_keys d) -> dict_keys (dict_setitem k v d) = dict_keys d.
Proof.
  induction d as [ | [k' v'] d IH ]; simpl; [ tauto | ].
  destruct (String.eqb_spec k' k) as [ E | N ]; simpl; [ reflexivity | ].
  intros [ E | H ]; [ contradiction | ]. now rewrite IH.
Qed.

Lemma dict_lookup_setitem k v d : dict_lookup k (dict_setitem k v d) = Some v.
Proof.
  induction d as [ | [k' v'] d IH ]; simpl.
  - now rewrite String.eqb_refl.
  - destruct (String.eqb_spec k' k) as [ E | N ]; simpl.
    + now rewrite (proj2 (String.eqb_eq _ _) E).
    + now rewrite (proj2 (String.eqb_neq _ _) N).
Qed.

Lemma dict_lookup_setitem_other k k' v d :
  k' <> k -> dict_lookup k' (dict_setitem k v d) = dict_lookup k' d.
Proof.
  intros N. induction d as [ | [k0 v0] d IH ]; simpl.
  - destruct (String.eqb_spec k k'); [ congruence | reflexivity ].
  - destruct (String.eqb_spec k0 k) as [ E | N0 ]; simpl.
    + subst k0. destruct (String.eqb_spec k k'); [ congruence | reflexivity ].
    + now rewrite IH.
Qed.

Lemma dict_setitem_twice k v v' d :
  dict_setitem k v' (dict_setitem k v d) = dict_setitem k v' d.
Proof.
  induction d as [ | [k0 v0] d IH ]; simpl.
  - now rewrite String.eqb_refl.
  - destruct (String.eqb k0 k) eqn:E; simpl; rewrite E; [ reflexivity | ].
    now rewrite IH.
Qed.

Lemma dict_setitem_same k v d :
  dict_lookup k d = Some v -> dict_setitem k v d = d.
Proof.
  induction d as [ | [k0 v0] d IH ]; simpl; [ discriminate | ].
  destruct (String.eqb k0 k) eqn:E.
  - now intros [= ->].
  - intros H. now rewrite IH.
Qed.

(** An entry with another key stays where it is, with its value. *)
Lemma dict_setitem_nth k v d (i : nat) k' v' :
  In k (dict_keys d) ->
  nth_error d i = Some (k', v') -> k' <> k ->
  nth_error (dict_setitem k v d) i = Some (k', v').
Proof.
  revert i. induction d as [ | [k0 v0] d IH ]; intros i Hin Hn N; simpl in *;
    [ tauto | ].
  destruct (String.eqb_spec k0 k) as [ E | N0 ].
  - destruct i as [ | i ]; simpl in *; [ congruence | exact Hn ].
  - destruct i as [ | i ]; simpl in *; [ exact Hn | ].
    apply IH; auto. destruct Hin; [ contradiction | assumption ].
Qed.

Lemma dict_setitem_length k v d :
  In k (dict_keys d) -> List.length (dict_setitem k v d) = List.length d.
Proof.
  intros H. rewrite <- (length_map fst (dict_setitem k v d)), <- (length_map fst d).
  change (map fst (dict_setitem k v d)) with (dict_keys (dict_setitem k v d)).
  now rewrite dict_keys_setitem.
Qed.
End DictFacts.

(** ** [header] and [toggle_zip] *)

(** C3: assigning [text] to [header] returns and stores [text] exactly
    when [text] has at most 30 characters; when it has more, the
    assignment raises [ValueError] and the object, its header included,
    is as before. *)
Theorem header_set_spec (self : DataSet) (text : string) :
  (String.length text <= 30 ->
   header_set text self
   = (Ok tt, mkDataSet text (_data self) (_zips self) (_times self)))
  /\ (30 < String.length text ->
      header_set text self = (Raise ValueError, self))
  /\ (fst (header_set text self) = Ok tt <-> String.length text <= 30)
  /\ (fst (header_set text self) = Ok tt ->
      header_get (snd (header_set text self)) = text).
Proof.
  unfold header_set, header_get.
  destruct (Nat.leb_spec (String.length text) 30) as [ Hle | Hgt ]; simpl.
  - repeat split; auto. intros; lia.
  - repeat split; try (intros; lia); discriminate.
Qed.

(** A header of 30 characters is stored; one of 31 is refused. *)
Example header_30_31 :
  header_set "123456789012345678901234567890" default_dataset
  = (Ok tt, with_header "123456789012345678901234567890" default_dataset)
  /\ header_set "1234567890123456789012345678901" default_dataset
     = (Raise ValueError, default_dataset)
  /\ __init__ "1234567890123456789012345678901" = Raise ValueError.
Proof. repeat split. Qed.

Lemma toggle_zip_present (self : DataSet) (zip : string) (b : bool) :
  dict_lookup zip (_zips self) = Some b ->
  toggle_zip zip self
  = (Ok tt, with_zips (dict_setitem zip (negb b) (_zips self)) self).
Proof.
  intros H. unfold toggle_zip, dict_getitem.
  assert (Hc : dict_contains zip (_zips self) = true)
    by (apply dict_contains_keys, dict_lookup_keys; eauto).
  now rewrite Hc, H.
Qed.

Lemma toggle_zip_absent (self : DataSet) (zip : string) :
  ~ In zip (dict_keys (_zips self)) ->
  toggle_zip zip self = (Raise LookupError, self).
Proof.
  intros H. unfold toggle_zip.
  destruct (dict_contains zip (_zips self)) eqn:Hc; [ | reflexivity ].
  apply dict_contains_keys in Hc. contradiction.
Qed.

(** C4: when the zip code is a key of the mapping, [toggle_zip] returns
    and the flag stored for it is the negation of the flag before; when
    it is not a key, [toggle_zip] raises [LookupError] and the object,
    its mapping included, is as before. *)
Theorem toggle_zip_spec (self : DataSet) (zip : string) :
  (In zip (dict_keys (_zips self)) ->
   exists b self',
     dict_lookup zip (_zips self) = Some b
     /\ toggle_zip zip self = (Ok tt, self')
     /\ dict_lookup zip (_zips self') = Some (negb b))
  /\ (~ In zip (dict_keys (_zips self)) ->
      toggle_zip zip self = (Raise LookupError, self)).
Proof.
  split; [ | apply toggle_zip_absent ].
  intros Hin. apply dict_lookup_keys in Hin as [b Hb].
  exists b. eexists. split; [ exact Hb | ].
  split; [ apply toggle_zip_present, Hb | ].
  simpl. apply dict_lookup_setitem.
Qed.

(** C5: for a zip code that is a key of the mapping, two calls of
    [toggle_zip] in a row both return and leave the object, its mapping
    included, as it was before the first. *)
Theorem toggle_zip_involution (self : DataSet) (zip : string) :
  In zip (dict_keys (_zips self)) ->
  exists self',
    toggle_zip zip self = (Ok tt, self')
    /\ toggle_zip zip self' = (Ok tt, self).
Proof.
  intros Hin. apply dict_lookup_keys in Hin as [b Hb].
  eexists. split; [ apply toggle_zip_present, Hb | ].
  rewrite (toggle_zip_present _ zip (negb b)) by apply dict_lookup_setitem.
  f_equal. destruct self as [h d z t]. unfold with_zips. simpl in *.
  rewrite negb_involutive, dict_setitem_twice.
  now rewrite (dict_setitem_same _ _ _ Hb).
Qed.

Lemma toggle_zip_involution_witness :
  exists self',
    toggle_zip "94022" default_dataset = (Ok tt, self')
    /\ toggle_zip "94022" self' = (Ok tt, default_dataset).
Proof.
  apply (toggle_zip_involution default_dataset "94022").
  simpl. tauto.
Defined.

(** C10: a call of [toggle_zip] that returns changes the flag of one
    entry only: the keys of the mapping and their order, the entries of
    every other zip code (each at its position), the readings, the time
    labels and the header are as before. *)
Theorem toggle_zip_frame (self : DataSet) (zip : string) :
  In zip (dict_keys (_zips self)) ->
  exists self',
    toggle_zip zip self = (Ok tt, self')
    /\ dict_keys (_zips self') = dict_keys (_zips self)
    /\ (forall zip', zip' <> zip ->
          dict_lookup zip' (_zips self') = dict_lookup zip' (_zips self))
    /\ (forall i zip' b, nth_error (_zips self) i = Some (zip', b) ->
          zip' <> zip -> nth_error (_zips self') i = Some (zip', b))
    /\ List.length (_zips self') = List.length (_zips self)
    /\ _data self' = _data self
    /\ _times self' = _times self
    /\ _header self' = _header self.
Proof.
  intros Hin. destruct (proj1 (dict_lookup_keys _ _) Hin) as [b Hb].
  eexists. split; [ apply toggle_zip_present, Hb | ]. simpl.
  split; [ now apply dict_keys_setitem | ].
  split; [ intros zip' N; now apply dict_lookup_setitem_other | ].
  split; [ intros i zip' b' Hn N; now apply dict_setitem_nth | ].
  split; [ now apply dict_setitem_length | ].
  repeat split.
Qed.

Lemma toggle_zip_frame_witness :
  exists self',
    toggle_zip "94022" default_dataset = (Ok tt, self')
    /\ dict_keys (_zips self') = dict_keys (_zips default_dataset)
    /\ (forall zip', zip' <> "94022" ->
          dict_lookup zip' (_zips self') = dict_lookup zip' (_zips default_dataset))
    /\ (forall i zip' b, nth_error (_zips default_dataset) i = Some (zip', b) ->
          zip' <> "94022" -> nth_error (_zips self') i = Some (zip', b))
    /\ List.length (_zips self') = List.length (_zips default_dataset)
    /\ _data self' = _data default_dataset
    /\ _times self' = _times default_dataset
    /\ _header self' = _header default_dataset.
Proof.
  apply (toggle_zip_frame default_dataset "94022").
  simpl. tauto.
Defined.

(** ** Labels *)

Section FirstSeen.
Implicit Types (l s : list string) (x y : string).

Lemma filter_swap {A : Type} (p q : A -> bool) (l : list A) :
  filter p (filter q l) = filter q (filter p l).
Proof.
  induction l as [ | a l IH ]; [ reflexivity | ]. simpl.
  destruct (p a) eqn:P, (q a) eqn:Q; simpl; rewrite ?P, ?Q, IH; reflexivity.
Qed.

Lemma filter_absent {A : Type} (p q : A -> bool) (l : list A) :
  (forall a, p a = true -> q a = true) -> filter q (filter p l) = filter p l.
Proof.
  intros H. induction l as [ | a l IH ]; [ reflexivity | ]. simpl.
  destruct (p a) eqn:P; simpl; [ rewrite (H a P), IH | rewrite IH ]; reflexivity.
Qed.

Lemma filter_both {A : Type} (p q : A -> bool) (l : list A) :
  filter p (filter q l) = filter (fun a => q a && p a) l.
Proof.
  induction l as [ | a l IH ]; [ reflexivity | ]. simpl.
  destruct (q a); simpl; [ destruct (p a) | ]; rewrite IH; reflexivity.
Qed.

Lemma first_seen_filter (p : string -> bool) l :
  first_seen (filter p l) = filter p (first_seen l).
Proof.
  induction l as [ | x l IH ]; [ reflexivity | ]. simpl.
  destruct (p x) eqn:P; simpl; rewrite ?P, IH.
  - f_equal. apply filter_swap.
  - rewrite filter_swap. symmetry. apply filter_absent.
    intros a Pa. destruct (String.eqb_spec x a); [ congruence | reflexivity ].
Qed.

Lemma first_seen_In x l : In x (first_seen l) <-> In x l.
Proof.
  induction l as [ | y l IH ]; simpl; [ tauto | ].
  rewrite filter_In, IH. destruct (String.eqb_spec y x); intuition congruence.
Qed.

Lemma first_seen_NoDup l : NoDup (first_seen l).
Proof.
  induction l as [ | x l IH ]; simpl; constructor.
  - rewrite filter_In, String.eqb_refl. intros [_ H]. discriminate.
  - now apply NoDup_filter.
Qed.

Lemma set_mem_app x s s' : set_mem x (s ++ s') = set_mem x s || set_mem x s'.
Proof.
  induction s as [ | y s IH ]; simpl; [ reflexivity | ].
  destruct (String.eqb y x); [ reflexivity | exact IH ].
Qed.

(** Adding the items of [l] to the set [s], one after the other. *)
Lemma set_add_fold l s :
  fold_left (fun acc x => set_add x acc) l s
  = s ++ first_seen (filter (fun x => negb (set_mem x s)) l).
Proof.
  revert s. induction l as [ | x l IH ]; intros s; simpl.
  - now rewrite app_nil_r.
  - unfold set_add at 2. destruct (set_mem x s) eqn:E; simpl.
    + apply IH.
    + rewrite IH, <- app_assoc. simpl. do 2 f_equal.
      rewrite <- first_seen_filter, filter_both. f_equal.
      apply filter_ext. intros a. rewrite set_mem_app. simpl.
      destruct (set_mem a s), (String.eqb x a); reflexivity.
Qed.

Lemma set_add_fold_nil l :
  fold_left (fun acc x => set_add x acc) l [] = first_seen l.
Proof.
  rewrite set_add_fold. simpl. f_equal.
  induction l as [ | x l IH ]; simpl; congruence.
Qed.
End FirstSeen.

Lemma in_map_rows {A B : Type} (f : A -> B) (l : list A) (y : B) :
  In y (map f l) <-> exists x, In x l /\ f x = y.
Proof.
  rewrite in_map_iff. split; intros (x & H1 & H2); exists x; auto.
Qed.

Section Labels.

Lemma dict_contains_flagged (zip : string) (s : pyset) :
  dict_setitem zip true (map flagged s) = map flagged (set_add zip s).
Proof.
  unfold set_add. induction s as [ | y s IH ]; simpl; [ reflexivity | ].
  destruct (String.eqb y zip) eqn:E; [ reflexivity | ].
  rewrite IH. destruct (set_mem zip s); reflexivity.
Qed.

(** The two local variables of the loop after the rows [data]. *)
Lemma labels_fold (data : list reading) (s t : pyset) :
  fold_left labels_step data (map flagged s, t)
  = (map flagged (fold_left (fun acc x => set_add x acc) (map row0 data) s),
     fold_left (fun acc x => set_add x acc) (map row1 data) t).
Proof.
  revert s t. induction data as [ | row data IH ]; intros s t; [ reflexivity | ].
  simpl. unfold labels_step at 2. simpl.
  rewrite dict_contains_flagged. apply IH.
Qed.

Lemma labels_of_rows (data : list reading) :
  fold_left labels_step data ([], [])
  = (map flagged (first_seen (map row0 data)), first_seen (map row1 data)).
Proof.
  change (@nil (string * bool)) with (map flagged []).
  now rewrite labels_fold, !set_add_fold_nil.
Qed.

Lemma dict_keys_flagged (s : pyset) : dict_keys (map flagged s) = s.
Proof. unfold dict_keys. rewrite map_map. apply map_id. Qed.

Lemma dict_lookup_flagged (s : pyset) (zip : string) :
  In zip s -> dict_lookup zip (map flagged s) = Some true.
Proof.
  induction s as [ | y s IH ]; simpl; [ tauto | ].
  destruct (String.eqb_spec y zip) as [ E | N ]; [ reflexivity | ].
  intros [ E | H ]; [ contradiction | auto ].
Qed.

Variable list_of_set : pyset -> list string.

Lemma load_eq (rows : list reading) (self : DataSet) :
  load list_of_set rows self
  = (Ok tt,
     mkDataSet (_header self) (Some rows)
       (map flagged (first_seen (map row0 rows)))
       (list_of_set (first_seen (map row1 rows)))).
Proof.
  unfold load, _initialize_labels. simpl. now rewrite labels_of_rows.
Qed.

(** The enumeration of a set gives each of its elements once. *)
Hypothesis list_of_set_perm :
  forall s : pyset, NoDup s -> Permutation (list_of_set s) s.

(** C6: a load of the rows [rows] returns, and afterwards the readings
    are [rows]; the mapping has one entry for each distinct zip code of
    [rows], in the order of first occurrence, each with the flag [True];
    the time labels are the distinct times of day of [rows], each once;
    and the readings, the mapping and the labels are the same whatever
    the object was before the load.  The header is as before. *)
Theorem load_replaces (self : DataSet) (rows : list reading) :
  exists self',
    load list_of_set rows self = (Ok tt, self')
    /\ _data self' = Some rows
    /\ _zips self' = map flagged (first_seen (map row0 rows))
    /\ (NoDup (dict_keys (_zips self'))
        /\ forall zip, In zip (dict_keys (_zips self')) <->
                       exists row, In row rows /\ row0 row = zip)
    /\ (forall zip, In zip (dict_keys (_zips self')) ->
                    dict_lookup zip (_zips self') = Some true)
    /\ Permutation (_times self') (first_seen (map row1 rows))
    /\ (NoDup (_times self')
        /\ forall time, In time (_times self') <->
                        exists row, In row rows /\ row1 row = time)
    /\ _header self' = _header self
    /\ (forall other, exists other',
          load list_of_set rows other = (Ok tt, other')
          /\ _data other' = _data self'
          /\ _zips other' = _zips self'
          /\ _times other' = _times self').
Proof.
  eexists. split; [ apply load_eq | ]. simpl.
  assert (P := list_of_set_perm _ (first_seen_NoDup (map row1 rows))).
  split; [ reflexivity | ]. split; [ reflexivity | ].
  split.
  { rewrite dict_keys_flagged. split; [ apply first_seen_NoDup | ].
    intros zip. rewrite first_seen_In. apply in_map_rows. }
  split.
  { rewrite dict_keys_flagged. apply dict_lookup_flagged. }
  split; [ exact P | ].
  split.
  { split.
    - apply (Permutation_NoDup (Permutation_sym P)), first_seen_NoDup.
    - intros time.
      etransitivity; [ | apply in_map_rows ].
      etransitivity; [ | apply first_seen_In ].
      split; apply Permutation_in; [ exact P | exact (Permutation_sym P) ]. }
  split; [ reflexivity | ].
  intros other. eexists. split; [ apply load_eq | ]. simpl. auto.
Qed.
End Labels.

Lemma rev_enumerates (s : pyset) : NoDup s -> Permutation (rev s) s.
Proof. intros _. apply Permutation_sym, Permutation_rev. Qed.

Lemma load_replaces_witness :
  exists self',
    load (@rev string) default_data tenths_dataset = (Ok tt, self')
    /\ _data self' = Some default_data
    /\ _zips self' = map flagged (first_seen (map row0 default_data))
    /\ (NoDup (dict_keys (_zips self'))
        /\ forall zip, In zip (dict_keys (_zips self')) <->
                       exists row, In row default_data /\ row0 row = zip)
    /\ (forall zip, In zip (dict_keys (_zips self')) ->
                    dict_lookup zip (_zips self') = Some true)
    /\ Permutation (_times self') (first_seen (map row1 default_data))
    /\ (NoDup (_times self')
        /\ forall time, In time (_times self') <->
                        exists row, In row default_data /\ row1 row = time)
    /\ _header self' = _header tenths_dataset
    /\ (forall other, exists other',
          load (@rev string) default_data other = (Ok tt, other')
          /\ _data other' = _data self'
          /\ _zips other' = _zips self'
          /\ _times other' = _times self').
Proof.
  exact (load_replaces (@rev string) rev_enumerates tenths_dataset default_data).
Defined.

(** The two loaders of the class are loads of their rows. *)
Lemma load_default_data_eq (list_of_set : pyset -> list string) :
  load_default_data list_of_set = load list_of_set default_data.
Proof. reflexivity. Qed.

Lemma load_file_eq (list_of_set : pyset -> list string)
    (py_float : string -> result float) (csvreader : list (list string))
    (rows : list reading) (self self' : DataSet) (out out' : stdout) :
  load_file list_of_set py_float (Some csvreader) (self, out) = (Ok tt, (self', out')) ->
  read_rows py_float csvreader = Ok rows ->
  load list_of_set rows self = (Ok tt, self').
Proof.
  unfold load_file. intros H E. rewrite E in H.
  rewrite load_eq in *. simpl in H. congruence.
Qed.

(** A load that raises leaves the object as it was. *)
Lemma load_file_raises (list_of_set : pyset -> list string)
    (py_float : string -> result float) (file : option (list (list string)))
    (e : exn) (w w' : DataSet * stdout) :
  load_file list_of_set py_float file w = (Raise e, w') -> w' = w.
Proof.
  unfold load_file. destruct w as [self out], file as [ csvreader | ];
    [ | congruence ].
  destruct (read_rows py_float csvreader) as [ rows | e' ]; [ | congruence ].
  rewrite load_eq. simpl. discriminate.
Qed.

(** With the labels enumerated in the order they were added,
    [load_default_data] on a new object gives [default_dataset]. *)
Example load_default_data_new :
  rbind (__init__ "") (fun self => Ok (snd (load_default_data (fun s => s) self)))
  = Ok default_dataset.
Proof. reflexivity. Qed.

(** ** [get_data] *)

Section GetData.
Variable list_of_set : pyset -> list string.

Lemma exec_data (c : call) (self : DataSet) :
  _data (exec list_of_set c self)
  = match c with CallLoad rows => Some rows | _ => _data self end.
Proof.
  destruct c as [ rows | text | zip ]; unfold exec.
  - now rewrite load_eq.
  - unfold header_set. now destruct (Nat.leb (String.length text) 30).
  - unfold toggle_zip. destruct (negb (dict_contains zip (_zips self)));
      [ reflexivity | ].
    now destruct (dict_getitem (_zips self) zip).
Qed.

Lemma run_data (calls : list call) (self : DataSet) :
  _data (run list_of_set calls self)
  = fold_left (fun acc c => match c with CallLoad rows => Some rows | _ => acc end)
      calls (_data self).
Proof.
  unfold run. revert self.
  induction calls as [ | c calls IH ]; intros self; [ reflexivity | ].
  simpl. rewrite IH, exec_data. reflexivity.
Qed.

Lemma last_load_from (calls : list call) (d : option (list reading)) :
  fold_left (fun acc c => match c with CallLoad rows => Some rows | _ => acc end)
    calls d
  = match last_load calls with Some rows => Some rows | None => d end.
Proof.
  unfold last_load. revert d. induction calls as [ | c calls IH ]; intros d;
    [ reflexivity | ].
  simpl. rewrite IH, (IH (match c with CallLoad rows => Some rows | _ => None end)).
  destruct (fold_left _ calls None); [ reflexivity | ]. now destruct c.
Qed.

Lemma last_load_None (calls : list call) :
  last_load calls = None <-> existsb is_load calls = false.
Proof.
  unfold last_load. induction calls as [ | c calls IH ]; simpl; [ tauto | ].
  rewrite last_load_from. destruct c as [ rows | text | zip ]; simpl.
  - destruct (last_load calls); split; discriminate.
  - destruct (last_load calls) eqn:E; [ | tauto ].
    rewrite <- IH. unfold last_load in E. rewrite E. tauto.
  - destruct (last_load calls) eqn:E; [ | tauto ].
    rewrite <- IH. unfold last_load in E. rewrite E. tauto.
Qed.

Lemma last_load_app (before after : list call) (rows : list reading) :
  existsb is_load after = false ->
  last_load (before ++ CallLoad rows :: after) = Some rows.
Proof.
  intros H. unfold last_load. rewrite fold_left_app. simpl.
  rewrite last_load_from. apply last_load_None in H. now rewrite H.
Qed.

Lemma init_data (header : string) (self : DataSet) :
  __init__ header = Ok self -> _data self = None.
Proof.
  unfold __init__, header_set.
  destruct (Nat.leb (String.length header) 30); [ | discriminate ].
  now intros [= <-].
Qed.

(** C7: on an object built by [__init__] and then used through any calls,
    [get_data] returns the one-item list [[None]] exactly when none of the
    calls was a load; after a load it returns the rows of the last load,
    item for item, so the empty list when that load had no row. *)
Theorem get_data_spec (header : string) (self : DataSet) (calls : list call) :
  __init__ header = Ok self ->
  (get_data (run list_of_set calls self) = [None] <->
   existsb is_load calls = false)
  /\ (forall before rows after,
        calls = before ++ CallLoad rows :: after ->
        existsb is_load after = false ->
        _data (run list_of_set calls self) = Some rows
        /\ get_data (run list_of_set calls self) = map Some rows)
  /\ (forall rows,
        _data (run list_of_set calls self) = Some rows ->
        get_data (run list_of_set calls self) = map Some rows
        /\ (rows = [] -> get_data (run list_of_set calls self) = [])).
Proof.
  intros Hinit. apply init_data in Hinit.
  assert (Hd : _data (run list_of_set calls self) = last_load calls).
  { rewrite run_data, last_load_from, Hinit. now destruct (last_load calls). }
  unfold get_data. rewrite Hd. split; [ | split ].
  - rewrite <- last_load_None. destruct (last_load calls) as [ rows | ].
    + split; [ | discriminate ]. destruct rows; discriminate.
    + tauto.
  - intros before rows after -> Hafter.
    now rewrite (last_load_app _ _ _ Hafter).
  - intros rows ->. split; [ reflexivity | now intros -> ].
Qed.
End GetData.

Lemma get_data_spec_witness :
  (get_data (run (fun s => s) example_calls new_dataset) = [None] <->
   existsb is_load example_calls = false)
  /\ (forall before rows after,
        example_calls = before ++ CallLoad rows :: after ->
        existsb is_load after = false ->
        _data (run (fun s => s) example_calls new_dataset) = Some rows
        /\ get_data (run (fun s => s) example_calls new_dataset) = map Some rows)
  /\ (forall rows,
        _data (run (fun s => s) example_calls new_dataset) = Some rows ->
        get_data (run (fun s => s) example_calls new_dataset) = map Some rows
        /\ (rows = [] ->
            get_data (run (fun s => s) example_calls new_dataset) = [])).
Proof.
  exact (get_data_spec (fun s => s) "PurpleAir" new_dataset example_calls eq_refl).
Defined.

(** After the three calls the readings are the default rows. *)
Example get_data_example :
  get_data (run (fun s => s) example_calls new_dataset) = map Some default_data.
Proof. reflexivity. Qed.

(** The list that [get_data] returns is a new object with the items of
    [_data]: writing through it leaves the list of the data set as it
    is. *)
Lemma heap_read_alloc (l : list (option reading)) (h : heap) :
  heap_read (fst (heap_alloc l h)) (snd (heap_alloc l h)) = Some l.
Proof.
  unfold heap_read, heap_alloc. simpl.
  rewrite nth_error_app2 by lia. now rewrite Nat.sub_diag.
Qed.

Lemma heap_read_write_other (r r' : nat) (l : list (option reading)) (h : heap) :
  r <> r' -> heap_read r (heap_write r' l h) = heap_read r h.
Proof.
  unfold heap_read. revert r r'.
  induction h as [ | x h IH ]; intros r r' N; [ reflexivity | ].
  destruct r' as [ | r' ], r as [ | r ]; simpl; try reflexivity;
    [ congruence | apply IH; congruence ].
Qed.

Lemma get_data_ref_copy (r : nat) (h : heap) (l : list (option reading)) :
  heap_read r h = Some l ->
  exists r' h',
    get_data_ref (Some r) h = Some (r', h')
    /\ r' <> r
    /\ heap_read r' h' = Some l
    /\ heap_read r h' = Some l
    /\ forall l', heap_read r (heap_write r' l' h') = Some l.
Proof.
  intros H. unfold get_data_ref. rewrite H.
  exists (fst (heap_alloc l h)), (snd (heap_alloc l h)).
  assert (Hlt : r < List.length h).
  { apply nth_error_Some. unfold heap_read in H. congruence. }
  assert (Hsame : heap_read r (snd (heap_alloc l h)) = Some l).
  { unfold heap_read, heap_alloc in *. simpl. now rewrite nth_error_app1. }
  split; [ reflexivity | ].
  split; [ simpl; lia | ].
  split; [ apply heap_read_alloc | ].
  split; [ exact Hsame | ].
  intros l'. rewrite heap_read_write_other by (simpl; lia). exact Hsame.
Qed.

(** The three states that [get_data] tells apart. *)
Example get_data_states :
  get_data (mkDataSet "" None [] []) = [None]
  /\ get_data (snd (load (fun s => s) [] (mkDataSet "" None [] []))) = []
  /\ get_data default_dataset = map Some default_data.
Proof. repeat split. Qed.

(** ** [display_cross_table] *)

Section Display.

(** A loop whose body only appends to the output. *)
Lemma for_each_appends {A : Type} (l : list A) (body : A -> M stdout unit)
    (f : A -> list chunk) :
  (forall x out, In x l -> body x out = (Ok tt, out ++ f x)) ->
  forall out, for_each l body out = (Ok tt, out ++ List.concat (map f l)).
Proof.
  induction l as [ | x l IH ]; intros H out; simpl.
  - now rewrite app_nil_r.
  - unfold bind. rewrite H by now left.
    rewrite IH by (intros; apply H; now right).
    now rewrite <- app_assoc.
Qed.

Lemma append_empty_r (s : string) : (s ++ "")%string = s.
Proof. induction s as [ | a s IH ]; simpl; congruence. Qed.

Lemma concat_singletons {A B : Type} (f : A -> B) (l : list A) :
  List.concat (map (fun x => [f x]) l) = map f l.
Proof. induction l as [ | x l IH ]; simpl; congruence. Qed.

Lemma concat_filter {A B : Type} (p : A -> bool) (f : A -> list B) (l : list A) :
  List.concat (map (fun x => if p x then f x else []) l)
  = List.concat (map f (filter p l)).
Proof.
  induction l as [ | x l IH ]; [ reflexivity | ]. simpl.
  destruct (p x); simpl; now rewrite IH.
Qed.

Lemma no_data_spec (self : DataSet) :
  no_data self = true <-> unloaded_or_empty self.
Proof.
  unfold no_data, unloaded_or_empty.
  destruct (_data self) as [ [ | row data ] | ]; simpl.
  - split; auto.
  - split; [ discriminate | intros [ H | H ]; discriminate ].
  - split; auto.
Qed.

(** With rows in the list, the only exception of the statistics is
    [NoMatchingItems]. *)
Lemma statistics_raise_loaded (self : DataSet) (zip time : string) (e : exn) :
  ~ unloaded_or_empty self ->
  _cross_table_statistics self zip time = Raise e -> e = NoMatchingItems.
Proof.
  intros Hl He.
  destruct (statistics_raise_cases self zip time e He) as [ [_ Hu] | [E _] ];
    [ contradiction | exact E ].
Qed.

Lemma select_index (stat : Stats) (t : stats_tuple) :
  tuple_index t (value stat) = Ok (select stat t).
Proof. destruct t as [[mn avg] mx], stat; reflexivity. Qed.

Lemma display_cell_eq (self : DataSet) (stat : Stats) (zip time : string)
    (out : stdout) :
  ~ unloaded_or_empty self ->
  display_cell self stat zip time out = (Ok tt, out ++ [cell_of self stat zip time]).
Proof.
  intros Hl. unfold display_cell, cell_of, bind, lift.
  destruct (_cross_table_statistics self zip time) as [ t | e ] eqn:E; simpl.
  - now rewrite select_index.
  - rewrite (statistics_raise_loaded self zip time e Hl E). reflexivity.
Qed.

Lemma display_row_eq (self : DataSet) (stat : Stats) (zip : string)
    (out : stdout) :
  ~ unloaded_or_empty self ->
  In zip (dict_keys (_zips self)) ->
  display_row self stat zip out
  = (Ok tt, out ++ if is_active self zip then row_of self stat zip else []).
Proof.
  intros Hl Hin. apply dict_lookup_keys in Hin as [b Hb].
  unfold display_row, is_active, dict_getitem, bind, lift. rewrite Hb.
  destruct b; simpl; [ | unfold ret; now rewrite app_nil_r ].
  unfold print at 1.
  rewrite (for_each_appends _ _ (fun time => [cell_of self stat zip time]))
    by (intros; now apply display_cell_eq).
  unfold print, row_of. rewrite concat_singletons, append_empty_r.
  rewrite <- !app_assoc. reflexivity.
Qed.

(** C8: when no load has occurred or the loaded list has no row,
    [display_cross_table] writes the one line that says so and nothing
    else.  Otherwise it writes the heading and then one row for each zip
    code whose flag is [True], and none for the others, in the order of
    the keys of the mapping; a row has one cell for each time label, in
    the order of the labels; a cell holds the statistic selected from the
    tuple of [_cross_table_statistics], or [N/A] when that call raises,
    which it does with [NoMatchingItems] only; and the call returns. *)
Theorem display_cross_table_spec (self : DataSet) (stat : Stats) (out : stdout) :
  (unloaded_or_empty self ->
   display_cross_table stat self out
   = (Ok tt,
      out ++ [Text ("No data is loaded. Please load the data set." ++ newline)]))
  /\ (~ unloaded_or_empty self ->
      display_cross_table stat self out = (Ok tt, out ++ table_of self stat)
      /\ forall zip time e,
           _cross_table_statistics self zip time = Raise e -> e = NoMatchingItems).
Proof.
  unfold display_cross_table. split.
  - intros Hu. now rewrite (proj2 (no_data_spec self) Hu).
  - intros Hl. split; [ | intros zip time e; now apply statistics_raise_loaded ].
    destruct (no_data self) eqn:E; [ now apply no_data_spec in E | ].
    unfold bind, print at 1 2.
    rewrite (for_each_appends _ _ (fun time => [Text (rjust 8 time ++ "")]))
      by reflexivity.
    unfold print at 1.
    rewrite (for_each_appends _ _
               (fun zip => if is_active self zip then row_of self stat zip else []))
      by (intros; now apply display_row_eq).
    rewrite concat_filter, concat_singletons.
    unfold table_of, heading_of. rewrite <- !app_assoc. simpl.
    do 4 f_equal. rewrite <- !app_assoc. simpl. f_equal.
    apply map_ext. intros time. now rewrite append_empty_r.
Qed.
End Display.

(** The table of the averages of the default data, and the same table
    once 94022 is inactive. *)
Example display_default :
  snd (display_cross_table AVG default_dataset [])
  = [ Text newline;
      Text "       "; Text " Morning"; Text "  Midday"; Text " Evening"; Text newline;
      Text "12345  "; Float2f 8 1.1; Text "     N/A"; Text "     N/A"; Text newline;
      Text "94022  "; Float2f 8 2.2; Float2f 8 1.0; Float2f 8 3.2; Text newline;
      Text "94040  "; Float2f 8 2.0; Text "     N/A"; Text "     N/A"; Text newline ].
Proof. vm_compute. reflexivity. Qed.

Example display_inactive :
  snd (display_cross_table AVG (snd (toggle_zip "94022" default_dataset)) [])
  = [ Text newline;
      Text "       "; Text " Morning"; Text "  Midday"; Text " Evening"; Text newline;
      Text "12345  "; Float2f 8 1.1; Text "     N/A"; Text "     N/A"; Text newline;
      Text "94040  "; Float2f 8 2.0; Text "     N/A"; Text "     N/A"; Text newline ].
Proof. vm_compute. reflexivity. Qed.


(** * Further properties *)

(** ** Objects in use *)

Section Reachable.
Variable list_of_set : pyset -> list string.

Lemma init_eq (header : string) (self : DataSet) :
  __init__ header = Ok self ->
  self = mkDataSet header None [] [] /\ String.length header <= 30.
Proof.
  unfold __init__, header_set.
  destruct (Nat.leb_spec (String.length header) 30) as [ H | H ];
    [ | discriminate ].
  intros [= <-]. split; [ reflexivity | exact H ].
Qed.

Lemma exec_header (c : call) (self : DataSet) :
  String.length (_header self) <= 30 ->
  String.length (_header (exec list_of_set c self)) <= 30.
Proof.
  intros H. destruct c as [ rows | text | zip ]; unfold exec.
  - now rewrite load_eq.
  - unfold header_set.
    destruct (Nat.leb_spec (String.length text) 30); simpl; assumption.
  - unfold toggle_zip. destruct (negb (dict_contains zip (_zips self)));
      [ exact H | ].
    now destruct (dict_getitem (_zips self) zip).
Qed.

(** X1: the header of an object built by [__init__] has at most 30
    characters, whatever calls (loads, assignments to [header], toggles)
    follow, and whether they return or raise. *)
Theorem header_bounded (header : string) (self : DataSet) (calls : list call) :
  __init__ header = Ok self ->
  String.length (_header (run list_of_set calls self)) <= 30.
Proof.
  intros Hinit. apply init_eq in Hinit as [-> Hlen].
  assert (H : String.length (_header (mkDataSet header None [] [])) <= 30)
    by exact Hlen.
  revert H. generalize (mkDataSet header None [] []). unfold run.
  induction calls as [ | c calls IH ]; intros self H; [ exact H | ].
  simpl. apply IH, exec_header, H.
Qed.

(** A call that is not a load keeps the readings, the time labels and
    the keys of the mapping. *)
Lemma exec_frame (c : call) (self : DataSet) :
  is_load c = false ->
  _data (exec list_of_set c self) = _data self
  /\ _times (exec list_of_set c self) = _times self
  /\ dict_keys (_zips (exec list_of_set c self)) = dict_keys (_zips self).
Proof.
  destruct c as [ rows | text | zip ]; [ discriminate | | ]; intros _;
    unfold exec.
  - unfold header_set. now destruct (Nat.leb (String.length text) 30).
  - destruct (in_dec string_dec zip (dict_keys (_zips self))) as [ Hin | Hout ].
    + destruct (proj1 (dict_lookup_keys _ _) Hin) as [b Hb].
      rewrite (toggle_zip_present _ _ _ Hb). simpl.
      now rewrite dict_keys_setitem.
    + now rewrite toggle_zip_absent.
Qed.

Lemma run_frame (calls : list call) (self : DataSet) :
  existsb is_load calls = false ->
  _data (run list_of_set calls self) = _data self
  /\ _times (run list_of_set calls self) = _times self
  /\ dict_keys (_zips (run list_of_set calls self)) = dict_keys (_zips self).
Proof.
  unfold run. revert self.
  induction calls as [ | c calls IH ]; intros self H; [ now repeat split | ].
  simpl in *. apply orb_false_iff in H as [Hc Hr].
  destruct (exec_frame c self Hc) as (E1 & E2 & E3).
  destruct (IH (exec list_of_set c self) Hr) as (F1 & F2 & F3).
  repeat split; congruence.
Qed.

(** X4: toggles and assignments to [header] change nothing that the
    statistics read: after any calls none of which is a load, the
    readings, the time labels and the keys of the mapping are as before,
    and [_cross_table_statistics] gives what it gave. *)
Theorem statistics_ignore_filters (self : DataSet) (calls : list call) :
  existsb is_load calls = false ->
  _data (run list_of_set calls self) = _data self
  /\ _times (run list_of_set calls self) = _times self
  /\ dict_keys (_zips (run list_of_set calls self)) = dict_keys (_zips self)
  /\ forall zip time,
       _cross_table_statistics (run list_of_set calls self) zip time
       = _cross_table_statistics self zip time.
Proof.
  intros H. destruct (run_frame calls self H) as (E1 & E2 & E3).
  repeat split; try assumption.
  intros zip time. unfold _cross_table_statistics. now rewrite E1.
Qed.

Hypothesis list_of_set_perm :
  forall s : pyset, NoDup s -> Permutation (list_of_set s) s.

Lemma exec_labels (c : call) (self : DataSet) :
  labels_agree self -> labels_agree (exec list_of_set c self).
Proof.
  intros [Hk Ht]. unfold labels_agree, data_rows.
  destruct (is_load c) eqn:Hc.
  - destruct c as [ rows | | ]; try discriminate. unfold exec.
    rewrite load_eq. simpl. rewrite dict_keys_flagged.
    split; [ reflexivity | apply list_of_set_perm, first_seen_NoDup ].
  - destruct (exec_frame c self Hc) as (E1 & E2 & E3).
    rewrite E1, E2, E3. split; assumption.
Qed.

(** X2: in an object built by [__init__] and used through any calls,
    the keys of the mapping are, each once, the zip codes of the
    readings, in the order of their first occurrence, and the time labels
    are, each once, the times of day of the readings; before any load
    there is none of either. *)
Theorem labels_follow_readings (header : string) (self : DataSet)
    (calls : list call) :
  __init__ header = Ok self ->
  dict_keys (_zips (run list_of_set calls self))
  = first_seen (map row0 (data_rows (run list_of_set calls self)))
  /\ NoDup (dict_keys (_zips (run list_of_set calls self)))
  /\ (forall zip, In zip (dict_keys (_zips (run list_of_set calls self))) <->
                  exists row, In row (data_rows (run list_of_set calls self))
                              /\ row0 row = zip)
  /\ NoDup (_times (run list_of_set calls self))
  /\ (forall time, In time (_times (run list_of_set calls self)) <->
                   exists row, In row (data_rows (run list_of_set calls self))
                               /\ row1 row = time).
Proof.
  intros Hinit. apply init_eq in Hinit as [-> _].
  assert (H : labels_agree (run list_of_set calls (mkDataSet header None [] []))).
  { assert (H0 : labels_agree (mkDataSet header None [] []))
      by (split; [ reflexivity | constructor ]).
    revert H0. generalize (mkDataSet header None [] []). unfold run.
    induction calls as [ | c calls IH ]; intros self H0; [ exact H0 | ].
    simpl. apply IH, exec_labels, H0. }
  destruct H as [Hk Ht]. split; [ exact Hk | ].
  split; [ rewrite Hk; apply first_seen_NoDup | ].
  split.
  { intros zip. rewrite Hk, first_seen_In. apply in_map_rows. }
  split; [ apply (Permutation_NoDup (Permutation_sym Ht)), first_seen_NoDup | ].
  intros time.
  etransitivity; [ | apply in_map_rows ].
  etransitivity; [ | apply first_seen_In ].
  split; apply Permutation_in; [ exact Ht | exact (Permutation_sym Ht) ].
Qed.
End Reachable.

Lemma header_bounded_witness :
  String.length (_header (run (@rev string) example_calls new_dataset)) <= 30.
Proof.
  exact (header_bounded (@rev string) "PurpleAir" new_dataset example_calls eq_refl).
Defined.

Lemma statistics_ignore_filters_witness :
  _data (run (@rev string) [CallToggleZip "94022"; CallSetHeader "x"] default_dataset)
  = _data default_dataset
  /\ _times (run (@rev string) [CallToggleZip "94022"; CallSetHeader "x"] default_dataset)
     = _times default_dataset
  /\ dict_keys (_zips (run (@rev string) [CallToggleZip "94022"; CallSetHeader "x"]
                         default_dataset))
     = dict_keys (_zips default_dataset)
  /\ forall zip time,
       _cross_table_statistics
         (run (@rev string) [CallToggleZip "94022"; CallSetHeader "x"] default_dataset)
         zip time
       = _cross_table_statistics default_dataset zip time.
Proof.
  exact (statistics_ignore_filters (@rev string) default_dataset
           [CallToggleZip "94022"; CallSetHeader "x"] eq_refl).
Defined.

Lemma labels_follow_readings_witness :
  dict_keys (_zips (run (@rev string) example_calls new_dataset))
  = first_seen (map row0 (data_rows (run (@rev string) example_calls new_dataset)))
  /\ NoDup (dict_keys (_zips (run (@rev string) example_calls new_dataset)))
  /\ (forall zip,
        In zip (dict_keys (_zips (run (@rev string) example_calls new_dataset))) <->
        exists row, In row (data_rows (run (@rev string) example_calls new_dataset))
                    /\ row0 row = zip)
  /\ NoDup (_times (run (@rev string) example_calls new_dataset))
  /\ (forall time,
        In time (_times (run (@rev string) example_calls new_dataset)) <->
        exists row, In row (data_rows (run (@rev string) example_calls new_dataset))
                    /\ row1 row = time).
Proof.
  exact (labels_follow_readings (@rev string) rev_enumerates "PurpleAir"
           new_dataset example_calls eq_refl).
Defined.

(** ** Toggles *)

Section Toggles.

Lemma dict_setitem_swap {V : Type} (k1 k2 : string) (v1 v2 : V) (d : dict V) :
  k1 <> k2 -> In k1 (dict_keys d) -> In k2 (dict_keys d) ->
  dict_setitem k1 v1 (dict_setitem k2 v2 d)
  = dict_setitem k2 v2 (dict_setitem k1 v1 d).
Proof.
  intros N. induction d as [ | [k v] d IH ]; simpl; [ tauto | ].
  intros H1 H2.
  destruct (String.eqb_spec k k1) as [ E1 | N1 ],
           (String.eqb_spec k k2) as [ E2 | N2 ]; simpl.
  - congruence.
  - rewrite (proj2 (String.eqb_eq _ _) E1), (proj2 (String.eqb_neq _ _) N2).
    reflexivity.
  - rewrite (proj2 (String.eqb_eq _ _) E2), (proj2 (String.eqb_neq _ _) N1).
    reflexivity.
  - rewrite (proj2 (String.eqb_neq _ _) N1), (proj2 (String.eqb_neq _ _) N2).
    f_equal. apply IH; [ destruct H1 | destruct H2 ]; congruence.
Qed.

Lemma toggle_zip_cases (self : DataSet) (zip : string) :
  (exists b, dict_lookup zip (_zips self) = Some b
             /\ toggle_zip zip self
                = (Ok tt, with_zips (dict_setitem zip (negb b) (_zips self)) self))
  \/ (dict_lookup zip (_zips self) = None
      /\ toggle_zip zip self = (Raise LookupError, self)).
Proof.
  destruct (dict_lookup zip (_zips self)) as [ b | ] eqn:E.
  - left. exists b. split; [ reflexivity | now apply toggle_zip_present ].
  - right. split; [ reflexivity | ].
    now apply toggle_zip_absent, dict_lookup_None.
Qed.

(** X3: toggles of two zip codes commute: in either order each call has
    the same outcome (it returns, or raises [LookupError]) and the object
    at the end is the same. *)
Theorem toggle_zip_commute (self : DataSet) (zip1 zip2 : string) :
  fst (toggle_zip zip1 self) = fst (toggle_zip zip1 (snd (toggle_zip zip2 self)))
  /\ fst (toggle_zip zip2 self) = fst (toggle_zip zip2 (snd (toggle_zip zip1 self)))
  /\ snd (toggle_zip zip2 (snd (toggle_zip zip1 self)))
     = snd (toggle_zip zip1 (snd (toggle_zip zip2 self))).
Proof.
  destruct (string_dec zip1 zip2) as [ -> | N ].
  { destruct (toggle_zip_cases self zip2) as [ (b & Hb & E) | (Hb & E) ].
    - rewrite E. simpl.
      rewrite (toggle_zip_present _ zip2 (negb b)) by apply dict_lookup_setitem.
      now repeat split.
    - rewrite E. simpl. rewrite E. now repeat split. }
  destruct (toggle_zip_cases self zip1) as [ (b1 & H1 & E1) | (H1 & E1) ],
           (toggle_zip_cases self zip2) as [ (b2 & H2 & E2) | (H2 & E2) ];
    rewrite E1, E2; simpl.
  - rewrite (toggle_zip_present _ zip1 b1)
      by (simpl; rewrite dict_lookup_setitem_other; auto).
    rewrite (toggle_zip_present _ zip2 b2)
      by (simpl; rewrite dict_lookup_setitem_other; auto).
    simpl. repeat split. unfold with_zips. simpl. f_equal.
    apply dict_setitem_swap; [ auto | | ]; apply dict_lookup_keys; eauto.
  - rewrite E1.
    rewrite toggle_zip_absent
      by (simpl; rewrite dict_keys_setitem
            by (apply dict_lookup_keys; eauto); now apply dict_lookup_None).
    now repeat split.
  - rewrite E2.
    rewrite toggle_zip_absent
      by (simpl; rewrite dict_keys_setitem
            by (apply dict_lookup_keys; eauto); now apply dict_lookup_None).
    now repeat split.
  - rewrite E1, E2. now repeat split.
Qed.

Lemma is_active_toggled (self : DataSet) (zip k : string) (b : bool) :
  dict_lookup zip (_zips self) = Some b ->
  is_active (with_zips (dict_setitem zip (negb b) (_zips self)) self) k
  = active_after_toggle self zip k.
Proof.
  intros Hb. unfold active_after_toggle, is_active. simpl.
  destruct (String.eqb_spec k zip) as [ -> | N ].
  - now rewrite dict_lookup_setitem, Hb.
  - now rewrite dict_lookup_setitem_other.
Qed.

(** With rows in the list, what [display_cross_table] writes. *)
Lemma display_loaded (self : DataSet) (stat : Stats) (out : stdout) :
  ~ unloaded_or_empty self ->
  display_cross_table stat self out = (Ok tt, out ++ table_of self stat).
Proof.
  intros Hl. unfold display_cross_table.
  destruct (no_data self) eqn:E; [ now apply no_data_spec in E | ].
  unfold bind, print at 1 2.
  rewrite (for_each_appends _ _ (fun time => [Text (rjust 8 time ++ "")]))
    by reflexivity.
  unfold print at 1.
  rewrite (for_each_appends _ _
             (fun zip => if is_active self zip then row_of self stat zip else []))
    by (intros; now apply display_row_eq).
  rewrite concat_filter, concat_singletons.
  unfold table_of, heading_of. rewrite <- !app_assoc. simpl.
  do 4 f_equal. rewrite <- !app_assoc. simpl. f_equal.
  apply map_ext. intros time. now rewrite append_empty_r.
Qed.

(** X6: after a toggle of a key, [display_cross_table] writes the table
    it wrote before with the row of that zip code taken out if it was
    active, and put in at the place of its key if it was not: the
    heading, the other rows and the cells are the same. *)
Theorem display_after_toggle (self : DataSet) (stat : Stats) (zip : string)
    (out : stdout) :
  ~ unloaded_or_empty self ->
  In zip (dict_keys (_zips self)) ->
  exists self',
    toggle_zip zip self = (Ok tt, self')
    /\ display_cross_table stat self' out
       = (Ok tt,
          out ++ heading_of self
              ++ List.concat
                   (map (row_of self stat)
                        (filter (active_after_toggle self zip)
                                (dict_keys (_zips self))))).
Proof.
  intros Hl Hin. destruct (proj1 (dict_lookup_keys _ _) Hin) as [b Hb].
  eexists. split; [ apply toggle_zip_present, Hb | ].
  set (self' := with_zips (dict_setitem zip (negb b) (_zips self)) self).
  assert (Hl' : ~ unloaded_or_empty self') by exact Hl.
  rewrite (display_loaded self' stat out Hl'). do 2 f_equal.
  unfold table_of. f_equal. f_equal.
  assert (Hk : dict_keys (_zips self') = dict_keys (_zips self))
    by (simpl; now apply dict_keys_setitem).
  rewrite Hk. f_equal.
  apply filter_ext. intros k. now apply is_active_toggled.
Qed.
End Toggles.

Lemma display_after_toggle_witness :
  exists self',
    toggle_zip "94022" default_dataset = (Ok tt, self')
    /\ display_cross_table AVG self' []
       = (Ok tt,
          [] ++ heading_of default_dataset
             ++ List.concat
                  (map (row_of default_dataset AVG)
                       (filter (active_after_toggle default_dataset "94022")
                               (dict_keys (_zips default_dataset))))).
Proof.
  apply (display_after_toggle default_dataset AVG "94022" []).
  - intros [ H | H ]; discriminate.
  - simpl. tauto.
Defined.

(** ** The order of the readings *)

Section ReadingOrder.
Local Open Scope float_scope.

Lemma SFleb_antisym x y :
  SFleb x y = true -> SFleb y x = true -> SFeqb x y = true.
Proof.
  destruct x as [ sx | sx | | sx mx ex ], y as [ sy | sy | | sy my ey ];
    unfold SFleb, SFeqb, SFcompare;
    repeat match goal with b : bool |- _ => destruct b end;
    try (intros; simpl in *; (discriminate || reflexivity));
    repeat match goal with
    | |- context [Z.compare ?a ?b] => destruct (Z.compare_spec a b)
    | |- context [Pos.compare_cont Eq ?a ?b] =>
        change (Pos.compare_cont Eq a b) with (Pos.compare a b);
        destruct (Pos.compare_spec a b)
    end;
    simpl; intros; subst; try discriminate; try reflexivity; lia.
Qed.

Lemma leb_antisym (x y : float) :
  (x <=? y) = true -> (y <=? x) = true -> (x =? y) = true.
Proof. rewrite !leb_spec, FloatAxioms.eqb_spec. apply SFleb_antisym. Qed.

Lemma Permutation_filter_same {A : Type} (p : A -> bool) (l l' : list A) :
  Permutation l l' -> Permutation (filter p l) (filter p l').
Proof.
  induction 1 as [ | a l l' _ IH | a b l | l l' l'' _ IH1 _ IH2 ]; simpl.
  - constructor.
  - destruct (p a); [ now constructor | exact IH ].
  - destruct (p a), (p b); try apply Permutation_refl. apply perm_swap.
  - exact (Permutation_trans IH1 IH2).
Qed.

Lemma matching_values_perm (data data' : list reading) (zip time : string) :
  Permutation data data' ->
  Permutation (matching_values data zip time) (matching_values data' zip time).
Proof.
  intros H. rewrite <- !matched_data_spec.
  now apply Permutation_map, Permutation_filter_same.
Qed.

(** Two minima of lists with the same items, none of them NaN, are equal
    as floats; so are two maxima. *)
Lemma minimum_unique (m m' : float) (l l' : list float) :
  Permutation l l' -> (forall v, In v l -> is_nan v = false) ->
  is_minimum m l -> is_minimum m' l' -> (m =? m') = true.
Proof.
  intros P Hnan [Hin Hlow] [Hin' Hlow'].
  assert (Hm' : In m' l) by exact (Permutation_in _ (Permutation_sym P) Hin').
  assert (Hm : In m l') by exact (Permutation_in _ P Hin).
  apply leb_antisym; apply leb_of_not_ltb; auto.
Qed.

Lemma maximum_unique (m m' : float) (l l' : list float) :
  Permutation l l' -> (forall v, In v l -> is_nan v = false) ->
  is_maximum m l -> is_maximum m' l' -> (m =? m') = true.
Proof.
  intros P Hnan [Hin Hup] [Hin' Hup'].
  assert (Hm' : In m' l) by exact (Permutation_in _ (Permutation_sym P) Hin').
  assert (Hm : In m l') by exact (Permutation_in _ P Hin).
  apply leb_antisym; apply leb_of_not_ltb; auto.
Qed.

(** X5: the minimum and the maximum do not depend on the order of the
    readings: for two objects whose readings are the same up to their
    order, and a zip code and a time of day whose matching values have no
    NaN, [_cross_table_statistics] raises the same exception for both,
    or returns for both with minima equal as floats and maxima equal as
    floats.  (The averages can differ: [mean_depends_on_order].) *)
Theorem statistics_order_independent (self1 self2 : DataSet)
    (data1 data2 : list reading) (zip time : string) :
  _data self1 = Some data1 -> _data self2 = Some data2 ->
  Permutation data1 data2 ->
  (forall v, In v (matching_values data1 zip time) -> is_nan v = false) ->
  match _cross_table_statistics self1 zip time,
        _cross_table_statistics self2 zip time with
  | Ok (mn1, _, mx1), Ok (mn2, _, mx2) =>
      (mn1 =? mn2) = true /\ (mx1 =? mx2) = true
  | Raise e1, Raise e2 => e1 = e2
  | _, _ => False
  end.
Proof.
  intros H1 H2 P Hnan.
  assert (Pm := matching_values_perm data1 data2 zip time P).
  destruct data1 as [ | r1 data1 ].
  { apply Permutation_nil in P. subst data2.
    rewrite !statistics_unloaded by (now right). reflexivity. }
  assert (Hne2 : data2 <> []).
  { intros ->. apply Permutation_sym, Permutation_nil in P. discriminate. }
  destruct (matching_values (r1 :: data1) zip time) as [ | v l ] eqn:Em.
  - apply Permutation_nil in Pm.
    rewrite (statistics_no_match self1 _ zip time H1) by (discriminate || exact Em).
    rewrite (statistics_no_match self2 _ zip time H2) by assumption.
    reflexivity.
  - destruct (statistics_match self1 _ zip time H1) as (mn1 & mx1 & E1 & Hmn1 & Hmx1).
    { rewrite Em. discriminate. }
    destruct (statistics_match self2 _ zip time H2) as (mn2 & mx2 & E2 & Hmn2 & Hmx2).
    { intros E. rewrite E in Pm. apply Permutation_sym, Permutation_nil in Pm.
      discriminate. }
    rewrite E1, E2. rewrite Em in *.
    split; [ exact (minimum_unique _ _ _ _ Pm Hnan Hmn1 Hmn2)
           | exact (maximum_unique _ _ _ _ Pm Hnan Hmx1 Hmx2) ].
Qed.
End ReadingOrder.

Lemma statistics_order_independent_witness :
  match _cross_table_statistics default_dataset "94040" "Morning",
        _cross_table_statistics
          (mkDataSet "" (Some (rev default_data)) [] []) "94040" "Morning" with
  | Ok (mn1, _, mx1), Ok (mn2, _, mx2) =>
      (mn1 =? mn2)%float = true /\ (mx1 =? mx2)%float = true
  | Raise e1, Raise e2 => e1 = e2
  | _, _ => False
  end.
Proof.
  apply (statistics_order_independent default_dataset
           (mkDataSet "" (Some (rev default_data)) [] [])
           default_data (rev default_data) "94040" "Morning" eq_refl eq_refl).
  - apply Permutation_rev.
  - intros v Hv. simpl in Hv. destruct Hv as [ <- | [ <- | [] ] ]; reflexivity.
Defined.

(** The average depends on the order in which the readings are added. *)
Example mean_depends_on_order :
  float_mean [0x1p60; 1; -0x1p60]%float = 0%float
  /\ float_mean [0x1p60; -0x1p60; 1]%float = (1 / 3)%float.
Proof. split; vm_compute; reflexivity. Qed.

(** ** [load_file] *)

Section LoadFile.
Variable list_of_set : pyset -> list string.
Variable py_float : string -> result float.

Lemma row_index_spec (row : list string) (i : nat) (x : string) :
  row_index row i = Ok x <-> nth_error row i = Some x.
Proof.
  unfold row_index. destruct (nth_error row i); split; congruence.
Qed.

(** What [read_rows] does with the first row. *)
Lemma read_rows_title (row : list string) (rest : list (list string)) :
  nth_error row 1 = Some "Approximate Zip Code" ->
  read_rows py_float (row :: rest) = read_rows py_float rest.
Proof.
  intros H. cbn [read_rows]. unfold row_index at 1. rewrite H. reflexivity.
Qed.

Lemma read_rows_data (row : list string) (rest : list (list string))
    (zip : string) :
  nth_error row 1 = Some zip -> zip <> "Approximate Zip Code" ->
  read_rows py_float (row :: rest)
  = match nth_error row 4, nth_error row 5 with
    | Some time, Some field =>
        match py_float field with
        | Ok x =>
            match read_rows py_float rest with
            | Ok tl => Ok ((zip, time, x) :: tl)
            | Raise e => Raise e
            end
        | Raise e => Raise e
        end
    | _, _ => Raise IndexError
    end.
Proof.
  intros H N. cbn [read_rows]. unfold row_index. rewrite H. cbn [rbind].
  rewrite (proj2 (String.eqb_neq _ _) N). cbn [negb].
  destruct (nth_error row 4) as [ time | ]; cbn [rbind]; [ | reflexivity ].
  destruct (nth_error row 5) as [ field | ]; cbn [rbind]; [ | reflexivity ].
  destruct (py_float field) as [ x | e ]; reflexivity.
Qed.

Lemma read_rows_short (row : list string) (rest : list (list string)) :
  nth_error row 1 = None -> read_rows py_float (row :: rest) = Raise IndexError.
Proof. intros H. cbn [read_rows]. unfold row_index at 1. now rewrite H. Qed.

(** X7: the comprehension of [load_file] returns exactly when every row
    of the file has a second field and every row other than a row of
    column titles has six fields, the sixth a float; the readings are
    then those of the rows that are not rows of titles, in the order of
    the file. *)
Theorem read_rows_spec (csvreader : list (list string)) (rows : list reading) :
  read_rows py_float csvreader = Ok rows <->
  (forall row, In row csvreader -> nth_error row 1 <> None)
  /\ Forall2 (reading_of_row py_float) (filter is_data_row csvreader) rows.
Proof.
  revert rows. induction csvreader as [ | row rest IH ]; intros rows.
  - simpl. split.
    + intros [= <-]. split; [ tauto | constructor ].
    + intros [_ H]. inversion H. reflexivity.
  - destruct (nth_error row 1) as [ zip | ] eqn:E1.
    2:{ rewrite (read_rows_short _ _ E1). split; [ discriminate | ].
        intros [H _]. elim (H row); [ now left | exact E1 ]. }
    destruct (string_dec zip "Approximate Zip Code") as [ -> | N ].
    + assert (Hd : is_data_row row = false)
        by (unfold is_data_row; now rewrite E1).
      rewrite (read_rows_title _ _ E1), IH.
      cbn [filter]. rewrite Hd.
      split; intros [H F]; (split; [ | exact F ]).
      * intros r [ <- | Hin ]; [ congruence | auto ].
      * intros r Hin. apply H. now right.
    + assert (Hd : is_data_row row = true).
      { unfold is_data_row. rewrite E1.
        now rewrite (proj2 (String.eqb_neq _ _) N). }
      rewrite (read_rows_data _ _ _ E1 N).
      cbn [filter]. rewrite Hd.
      split.
      * destruct (nth_error row 4) as [ time | ] eqn:E4; [ | discriminate ].
        destruct (nth_error row 5) as [ field | ] eqn:E5; [ | discriminate ].
        destruct (py_float field) as [ x | e ] eqn:Ex; [ | discriminate ].
        destruct (read_rows py_float rest) as [ tl | e ] eqn:Er; [ | discriminate ].
        intros [= <-]. destruct (proj1 (IH tl) eq_refl) as [H F].
        split.
        -- intros r [ <- | Hin ]; [ congruence | auto ].
        -- constructor; [ | exact F ].
           exists zip, time, field, x. auto.
      * intros [H F]. inversion F as [ | r0 r tl0 tl HR HF ]; subst.
        destruct HR as (zip' & time & field & x & H1 & H4 & H5 & Hx & ->).
        rewrite H4, H5, Hx.
        assert (Er : read_rows py_float rest = Ok tl).
        { apply IH. split; [ | exact HF ]. intros r Hin. apply H. now right. }
        rewrite Er. rewrite E1 in H1. now injection H1 as <-.
Qed.

(** X8: a call of [load_file] that raises leaves the object and the
    output as they were: there is no file, or [read_rows] raises.  A call
    that returns has loaded the readings of the file and written one
    line, the number of readings followed by [lines loaded.]. *)
Theorem load_file_spec (file : option (list (list string)))
    (self : DataSet) (out : stdout) :
  match load_file list_of_set py_float file (self, out) with
  | (Raise e, (self', out')) =>
      self' = self /\ out' = out
      /\ (file = None /\ e = FileNotFoundError
          \/ exists csvreader, file = Some csvreader
                               /\ read_rows py_float csvreader = Raise e)
  | (Ok _, (self', out')) =>
      exists csvreader rows,
        file = Some csvreader
        /\ read_rows py_float csvreader = Ok rows
        /\ load list_of_set rows self = (Ok tt, self')
        /\ _data self' = Some rows
        /\ out' = out ++ [Text ((str_of_nat (List.length rows) ++ " lines loaded.")
                                  ++ newline)]
  end.
Proof.
  unfold load_file. destruct file as [ csvreader | ].
  - destruct (read_rows py_float csvreader) as [ rows | e ] eqn:Er.
    + rewrite load_eq. unfold print.
      exists csvreader, rows.
      split; [ reflexivity | ]. split; [ exact Er | ].
      split; [ apply load_eq | ]. split; reflexivity.
    + repeat split. right. eauto.
  - repeat split. now left.
Qed.
End LoadFile.

(** ** The console *)

Section ConsoleFacts.
Variable py_int : string -> option Z.

Lemma io_print_eq (s e : string) (w : console) :
  io_print s e w = (Returned tt, with_screen (screen w ++ [Text (s ++ e)]) w).
Proof. reflexivity. Qed.

Lemma input_eq (prompt : string) (w : console) :
  input prompt w
  = match keyboard w with
    | [] => (UncaughtEOF, with_screen (screen w ++ [Text (prompt ++ "")]) w)
    | line :: rest =>
        (Returned line,
         mkConsole (my_dataset w) rest (screen w ++ [Text (prompt ++ "")]))
    end.
Proof. unfold input, io_bind. rewrite io_print_eq. simpl. now destruct (keyboard w). Qed.

Lemma print_label_eq (gotten_zips : dict bool) (i : nat) (k : string)
    (b : bool) (w : console) :
  dict_lookup k gotten_zips = Some b ->
  print_label gotten_zips (i, k) w
  = (Returned tt,
     with_screen
       (screen w ++ [Text ((str_of_nat i ++ ": " ++ ljust 11 k
                            ++ (if b then "ACTIVE" else "INACTIVE")) ++ newline)])
       w).
Proof.
  intros Hb. unfold print_label, io_bind, io_lift, dict_getitem.
  rewrite Hb. reflexivity.
Qed.

(** The labels are written, and nothing else happens. *)
Lemma print_labels_eq (gotten_zips : dict bool) (keys : list string)
    (start : nat) (w : console) :
  (forall k, In k keys -> In k (dict_keys gotten_zips)) ->
  exists shown,
    io_for_each (enumerate start keys) (print_label gotten_zips) w
    = (Returned tt, with_screen (screen w ++ shown) w).
Proof.
  revert start w. induction keys as [ | k keys IH ]; intros start w H.
  - exists []. simpl. unfold io_ret, with_screen. rewrite app_nil_r.
    now destruct w.
  - destruct (proj1 (dict_lookup_keys k gotten_zips) (H k (or_introl eq_refl)))
      as [b Hb].
    cbn [enumerate io_for_each]. unfold io_bind.
    rewrite (print_label_eq _ _ _ _ _ Hb).
    match goal with
    | |- context [io_for_each _ _ ?w'] =>
        destruct (IH (S start) w') as [shown E];
          [ intros k' Hk'; apply H; now right | rewrite E ]
    end.
    eexists. unfold with_screen. simpl. rewrite <- app_assoc. reflexivity.
Qed.

(** The key that the second loop finds, counting from [start]. *)
Lemma toggle_selected_eq (keys : list string) (start : nat) (n : Z)
    (w : console) :
  (forall k, In k keys -> In k (dict_keys (_zips (my_dataset w)))) ->
  toggle_selected (enumerate start keys) n w
  = match (if (Z.of_nat start <=? n)%Z
           then nth_error keys (Z.to_nat (n - Z.of_nat start)) else None) with
    | Some zip =>
        (Returned true, with_dataset (snd (toggle_zip zip (my_dataset w))) w)
    | None => (Returned false, w)
    end.
Proof.
  revert start. induction keys as [ | k keys IH ]; intros start H.
  - simpl. destruct (Z.of_nat start <=? n)%Z; [ | reflexivity ].
    now destruct (Z.to_nat (n - Z.of_nat start)).
  - simpl. destruct (Z.eqb_spec (Z.of_nat start) n) as [ E | N ].
    + subst n. rewrite Z.leb_refl, Z.sub_diag. simpl.
      destruct (proj1 (dict_lookup_keys _ _) (H k (or_introl eq_refl))) as [b Hb].
      unfold io_bind, on_dataset. rewrite (toggle_zip_present _ _ _ Hb).
      reflexivity.
    + rewrite IH by (intros k' Hk'; apply H; now right).
      destruct (Z.leb_spec (Z.of_nat start) n) as [ Hle | Hgt ].
      * assert (Hs : (Z.of_nat (S start) <=? n)%Z = true) by (apply Z.leb_le; lia).
        rewrite Hs.
        replace (Z.to_nat (n - Z.of_nat start))
          with (S (Z.to_nat (n - Z.of_nat (S start)))) by lia.
        reflexivity.
      * assert (Hs : (Z.of_nat (S start) <=? n)%Z = false) by (apply Z.leb_gt; lia).
        now rewrite Hs.
Qed.

Lemma same_but_flags_refl (d : DataSet) : same_but_flags d d.
Proof. now repeat split. Qed.

Lemma same_but_flags_trans (d1 d2 d3 : DataSet) :
  same_but_flags d1 d2 -> same_but_flags d2 d3 -> same_but_flags d1 d3.
Proof.
  intros (A1 & A2 & A3 & A4) (B1 & B2 & B3 & B4). repeat split; congruence.
Qed.

Lemma toggle_zip_same_but_flags (zip : string) (d : DataSet) :
  same_but_flags d (snd (toggle_zip zip d)).
Proof.
  destruct (in_dec string_dec zip (dict_keys (_zips d))) as [ Hin | Hout ].
  - destruct (proj1 (dict_lookup_keys _ _) Hin) as [b Hb].
    rewrite (toggle_zip_present _ _ _ Hb). repeat split. simpl.
    now apply dict_keys_setitem.
  - rewrite toggle_zip_absent by assumption. apply same_but_flags_refl.
Qed.

Lemma filters_after_same (typed : list string) (d : DataSet) :
  same_but_flags d (filters_after py_int typed d).
Proof.
  revert d. induction typed as [ | line rest IH ]; intros d; simpl.
  - apply same_but_flags_refl.
  - destruct (String.eqb line ""); [ apply same_but_flags_refl | ].
    destruct (py_int line) as [ n | ]; [ | apply IH ].
    destruct (selected_key (dict_keys (_zips d)) n) as [ zip | ]; [ | apply IH ].
    eapply same_but_flags_trans; [ apply toggle_zip_same_but_flags | apply IH ].
Qed.

Lemma after_blank_suffix (typed : list string) :
  exists read, typed = read ++ after_blank typed.
Proof.
  induction typed as [ | line rest [read IH] ]; simpl.
  - now exists [].
  - destruct (String.eqb line "").
    + now exists [line].
    + exists (line :: read). simpl. now f_equal.
Qed.

(** The loop of [manage_filters], with enough iterations counted. *)
Lemma manage_filters_loop_eq (fuel : nat) (w : console) :
  List.length (keyboard w) < fuel ->
  exists shown,
    manage_filters_loop py_int fuel w
    = (if has_blank (keyboard w) then Returned tt else UncaughtEOF,
       mkConsole (filters_after py_int (keyboard w) (my_dataset w))
         (after_blank (keyboard w)) (screen w ++ shown)).
Proof.
  revert w. induction fuel as [ | fuel IH ]; intros w Hlen; [ lia | ].
  destruct w as [d kb scr]. simpl in Hlen.
  cbn [manage_filters_loop]. unfold io_bind at 1. rewrite io_print_eq.
  unfold io_bind at 1. unfold get_zips, with_screen.
  cbn [my_dataset keyboard screen].
  unfold io_bind at 1.
  match goal with
  | |- context [io_for_each _ _ ?w'] =>
      destruct (print_labels_eq (_zips d) (dict_keys (_zips d)) 1 w')
        as [shown1 E1]; [ auto | rewrite E1 ]
  end.
  unfold io_bind at 1. rewrite input_eq. unfold with_screen.
  cbn [my_dataset keyboard screen].
  destruct kb as [ | line rest ].
  { eexists. simpl. rewrite <- !app_assoc. reflexivity. }
  cbn [has_blank after_blank filters_after].
  destruct (String.eqb line "") eqn:Eb.
  { eexists. unfold io_ret. rewrite <- !app_assoc. reflexivity. }
  simpl in Hlen.
  destruct (py_int line) as [ n | ].
  - unfold io_bind at 1. rewrite toggle_selected_eq by auto.
    cbn [my_dataset]. unfold selected_key. simpl Z.of_nat.
    destruct (if (1 <=? n)%Z then nth_error (dict_keys (_zips d)) (Z.to_nat (n - 1))
              else None) as [ zip | ].
    + unfold io_bind at 1. cbn [negb]. unfold io_ret at 1.
      match goal with
      | |- context [manage_filters_loop py_int fuel ?w'] =>
          destruct (IH w') as [shown2 E2]; [ simpl; lia | rewrite E2 ]
      end.
      eexists. unfold with_dataset. cbn [my_dataset keyboard screen].
      rewrite <- !app_assoc. reflexivity.
    + unfold io_bind at 1. cbn [negb]. rewrite io_print_eq.
      match goal with
      | |- context [manage_filters_loop py_int fuel ?w'] =>
          destruct (IH w') as [shown2 E2]; [ simpl; lia | rewrite E2 ]
      end.
      eexists. unfold with_screen. cbn [my_dataset keyboard screen].
      rewrite <- !app_assoc. reflexivity.
  - unfold io_bind at 1. rewrite io_print_eq.
    match goal with
    | |- context [manage_filters_loop py_int fuel ?w'] =>
        destruct (IH w') as [shown2 E2]; [ simpl; lia | rewrite E2 ]
    end.
    eexists. unfold with_screen. cbn [my_dataset keyboard screen].
    rewrite <- !app_assoc. reflexivity.
Qed.

(** X9: [manage_filters] by the state of the readings.  Before any load
    it writes that no data is loaded, reads nothing and returns.  After a
    load of no row it raises [IndexError] (the first item of an empty
    list), having written and read nothing.  With rows, it reads lines up
    to the first empty one and returns there, or raises [EOFError] when
    the lines end before; the object is then the one that
    [filters_after] gives: each line read that is a number between 1 and
    the number of keys toggles the key at that place, and no other line
    changes anything. *)
Theorem manage_filters_spec (w : console) :
  match _data (my_dataset w) with
  | None =>
      manage_filters py_int w
      = (Returned tt,
         with_screen
           (screen w ++ [Text ("No data is loaded. Please load the data set."
                               ++ newline)]) w)
  | Some [] => manage_filters py_int w = (Uncaught IndexError, w)
  | Some (_ :: _) =>
      exists shown,
        manage_filters py_int w
        = (if has_blank (keyboard w) then Returned tt else UncaughtEOF,
           mkConsole (filters_after py_int (keyboard w) (my_dataset w))
             (after_blank (keyboard w)) (screen w ++ shown))
  end.
Proof.
  unfold manage_filters, get_data.
  destruct (_data (my_dataset w)) as [ [ | row data ] | ]; try reflexivity.
  simpl map. cbv iota. apply manage_filters_loop_eq. lia.
Qed.

(** What a call of [manage_filters] can do, whatever the state. *)
Lemma manage_filters_cases (w : console) :
  exists o d' kb' shown,
    manage_filters py_int w = (o, mkConsole d' kb' (screen w ++ shown))
    /\ same_but_flags (my_dataset w) d'
    /\ (exists read, keyboard w = read ++ kb')
    /\ (o = Returned tt \/ o = UncaughtEOF
        \/ o = Uncaught IndexError /\ _data (my_dataset w) = Some []).
Proof.
  unfold manage_filters, get_data.
  destruct (_data (my_dataset w)) as [ [ | row data ] | ] eqn:Ed.
  - exists (Uncaught IndexError), (my_dataset w), (keyboard w), [].
    rewrite app_nil_r. split; [ now destruct w | ].
    split; [ apply same_but_flags_refl | ]. split; [ now exists [] | auto ].
  - simpl map. cbv iota.
    destruct (manage_filters_loop_eq (S (List.length (keyboard w))) w)
      as [shown E]; [ lia | ].
    rewrite E. do 3 eexists. exists shown. split; [ reflexivity | ].
    split; [ apply filters_after_same | ].
    split; [ apply after_blank_suffix | ].
    destruct (has_blank (keyboard w)); auto.
  - rewrite io_print_eq. do 4 eexists. split; [ reflexivity | ].
    split; [ apply same_but_flags_refl | ]. split; [ now exists [] | auto ].
Qed.

(** X10: a call of [manage_filters] ends in one of three ways: it
    returns, it raises [EOFError], or, when the loaded list has no row,
    it raises [IndexError]; so never [LookupError], whatever is typed.
    The object differs from the one before at most in the flags of the
    mapping, the lines left to read are a suffix of the lines there were,
    and what was on the screen is still there. *)
Theorem manage_filters_frame (w : console) :
  (fst (manage_filters py_int w) = Returned tt
   \/ fst (manage_filters py_int w) = UncaughtEOF
   \/ fst (manage_filters py_int w) = Uncaught IndexError
      /\ _data (my_dataset w) = Some [])
  /\ same_but_flags (my_dataset w) (my_dataset (snd (manage_filters py_int w)))
  /\ (exists read, keyboard w = read ++ keyboard (snd (manage_filters py_int w)))
  /\ (exists shown, screen (snd (manage_filters py_int w)) = screen w ++ shown).
Proof.
  destruct (manage_filters_cases w) as (o & d' & kb' & shown & E & Hd & Hk & Ho).
  rewrite E. simpl. eauto.
Qed.
End ConsoleFacts.

(** ** [menu] and [main] *)

Section MenuFacts.
Variable py_int : string -> option Z.
Variable list_of_set : pyset -> list string.
Variable py_float : string -> result float.
Variable file : option (list (list string)).

Lemma display_returns (stat : Stats) (self : DataSet) (out : stdout) :
  exists shown, display_cross_table stat self out = (Ok tt, out ++ shown).
Proof.
  destruct (no_data self) eqn:E.
  - unfold display_cross_table. rewrite E. eexists. reflexivity.
  - eexists. apply display_loaded. intros H. apply no_data_spec in H. congruence.
Qed.

Lemma load_file_header (self : DataSet) (out : stdout) :
  exists r d' shown,
    load_file list_of_set py_float file (self, out) = (r, (d', out ++ shown))
    /\ _header d' = _header self.
Proof.
  unfold load_file. destruct file as [ csvreader | ].
  - destruct (read_rows py_float csvreader) as [ rows | e ].
    + rewrite load_eq. unfold print. do 3 eexists. split; reflexivity.
    + exists (Raise e), self, []. now rewrite app_nil_r.
  - exists (Raise FileNotFoundError), self, []. now rewrite app_nil_r.
Qed.

(** What a choice of the menu can do. *)
Lemma option_cases (n : Z) (option : IO unit) (w : console) :
  valid_menu_options py_int list_of_set py_float file n = Some option ->
  exists o d' kb' shown,
    option w = (o, mkConsole d' kb' (screen w ++ shown))
    /\ o <> OutOfFuel
    /\ _header d' = _header (my_dataset w)
    /\ (exists read, keyboard w = read ++ kb')
    /\ (n <> 4%Z -> n <> 5%Z -> d' = my_dataset w /\ o = Returned tt).
Proof.
  intros H. unfold valid_menu_options in H.
  destruct n as [ | [ [ [ ] | [ ] | ] | [ [ ] | [ ] | ] | ] | ];
    try discriminate;
    apply (f_equal (fun o => match o with Some x => x | None => io_ret tt end)) in H;
    cbv beta iota in H; subst option; cbv beta.
  - (* 5 *)
    destruct (load_file_header (my_dataset w) (screen w))
      as (r & d' & shown & E & Hh).
    rewrite E. exists (of_result r), d', (keyboard w), shown.
    split; [ reflexivity | ]. split; [ now destruct r | ].
    split; [ exact Hh | ]. split; [ now exists [] | congruence ].
  - (* 3 *)
    destruct (display_returns MAX (my_dataset w) (screen w)) as [shown E].
    rewrite E. exists (Returned tt), (my_dataset w), (keyboard w), shown.
    split; [ reflexivity | ]. split; [ discriminate | ].
    split; [ reflexivity | ]. split; [ now exists [] | auto ].
  - (* 4 *)
    destruct (manage_filters_cases py_int w)
      as (o & d' & kb' & shown & E & (Hh & _) & Hk & Ho).
    exists o, d', kb', shown. split; [ exact E | ].
    split; [ destruct Ho as [ -> | [ -> | [ -> _ ] ] ]; discriminate | ].
    split; [ exact Hh | ]. split; [ exact Hk | congruence ].
  - (* 2 *)
    destruct (display_returns MIN (my_dataset w) (screen w)) as [shown E].
    rewrite E. exists (Returned tt), (my_dataset w), (keyboard w), shown.
    split; [ reflexivity | ]. split; [ discriminate | ].
    split; [ reflexivity | ]. split; [ now exists [] | auto ].
  - (* 1 *)
    destruct (display_returns AVG (my_dataset w) (screen w)) as [shown E].
    rewrite E. exists (Returned tt), (my_dataset w), (keyboard w), shown.
    split; [ reflexivity | ]. split; [ discriminate | ].
    split; [ reflexivity | ]. split; [ now exists [] | auto ].
Qed.

Lemma print_menu_eq (w : console) :
  exists shown, print_menu w = (Returned tt, with_screen (screen w ++ shown) w).
Proof.
  eexists. unfold print_menu, io_bind. rewrite !io_print_eq.
  unfold with_screen. cbn [my_dataset keyboard screen].
  rewrite <- !app_assoc. reflexivity.
Qed.

(** One turn of the loop of [menu], up to the line read. *)
Lemma menu_loop_step (fuel : nat) (w : console) :
  exists shown,
    menu_loop py_int list_of_set py_float file (S fuel) w
    = match keyboard w with
      | [] => (UncaughtEOF, with_screen (screen w ++ shown) w)
      | line :: rest =>
          match py_int line with
          | None =>
              (io_print2 "Please enter a number next time." newline ;;
               menu_loop py_int list_of_set py_float file fuel)%io
          | Some n =>
              if Z.eqb n 9
              then io_print2 "Exiting database. Goodbye." newline
              else
                match valid_menu_options py_int list_of_set py_float file n with
                | Some option =>
                    (option ;; io_print "" newline ;;
                     menu_loop py_int list_of_set py_float file fuel)%io
                | None =>
                    (io_print2 ("That is not a valid selection. Please choose "
                                ++ "something else.") newline ;;
                     menu_loop py_int list_of_set py_float file fuel)%io
                end
          end (mkConsole (my_dataset w) rest (screen w ++ shown))
      end.
Proof.
  destruct w as [d kb scr].
  cbn [menu_loop]. unfold io_bind at 1. unfold io_bind at 1. rewrite io_print_eq.
  unfold io_bind at 1.
  match goal with
  | |- context [print_menu ?w'] =>
      destruct (print_menu_eq w') as [shown1 E1]; rewrite E1
  end.
  unfold io_bind at 1. rewrite input_eq. unfold with_screen.
  cbn [my_dataset keyboard screen].
  eexists. destruct kb as [ | line rest ]; rewrite <- !app_assoc; reflexivity.
Qed.

(** The loop of [menu], with enough iterations counted. *)
Lemma menu_loop_cases (fuel : nat) (w : console) :
  List.length (keyboard w) < fuel ->
  exists o d' kb' shown,
    menu_loop py_int list_of_set py_float file fuel w
    = (o, mkConsole d' kb' (screen w ++ shown))
    /\ o <> OutOfFuel
    /\ _header d' = _header (my_dataset w)
    /\ (exists read, keyboard w = read ++ kb')
    /\ (o = Returned tt ->
        exists line, In line (keyboard w) /\ py_int line = Some 9%Z)
    /\ ((forall line, In line (keyboard w) ->
           py_int line <> Some 4%Z /\ py_int line <> Some 5%Z) ->
        d' = my_dataset w /\ (o = Returned tt \/ o = UncaughtEOF)).
Proof.
  revert w. induction fuel as [ | fuel IH ]; intros w Hlen; [ lia | ].
  destruct (menu_loop_step fuel w) as [shown0 E0]. rewrite E0. clear E0.
  destruct w as [d kb scr]. cbn [my_dataset keyboard screen] in *.
  destruct kb as [ | line rest ].
  { exists UncaughtEOF, d, [], shown0. unfold with_screen. simpl.
    split; [ reflexivity | ]. split; [ discriminate | ].
    split; [ reflexivity | ]. split; [ now exists [] | ].
    split; [ discriminate | auto ]. }
  simpl in Hlen.
  assert (Hnext : forall shown1,
            exists o d' kb' shown,
              menu_loop py_int list_of_set py_float file fuel
                (mkConsole d rest (scr ++ shown1))
              = (o, mkConsole d' kb' (scr ++ shown))
              /\ o <> OutOfFuel /\ _header d' = _header d
              /\ (exists read, line :: rest = read ++ kb')
              /\ (o = Returned tt ->
                  exists l, In l (line :: rest) /\ py_int l = Some 9%Z)
              /\ ((forall l, In l (line :: rest) ->
                     py_int l <> Some 4%Z /\ py_int l <> Some 5%Z) ->
                  d' = d /\ (o = Returned tt \/ o = UncaughtEOF))).
  { intros shown1.
    destruct (IH (mkConsole d rest (scr ++ shown1)))
      as (o & d' & kb' & shown & E & Ho & Hh & [read Hr] & H9 & H45);
      [ simpl; lia | ].
    cbn [my_dataset keyboard screen] in *. exists o, d', kb', (shown1 ++ shown).
    rewrite app_assoc. split; [ exact E | ]. split; [ exact Ho | ].
    split; [ exact Hh | ]. split; [ exists (line :: read); simpl; congruence | ].
    split.
    - intros Hret. destruct (H9 Hret) as (l & Hl & El). exists l.
      split; [ now right | exact El ].
    - intros H. apply H45. intros l Hl. apply H. now right. }
  destruct (py_int line) as [ n | ] eqn:Eline.
  2:{ unfold io_bind, io_print2. rewrite io_print_eq. unfold with_screen.
      cbn [my_dataset keyboard screen]. rewrite <- app_assoc. apply Hnext. }
  destruct (Z.eqb_spec n 9) as [ -> | N9 ].
  { unfold io_print2. rewrite io_print_eq. unfold with_screen.
    cbn [my_dataset keyboard screen]. rewrite <- app_assoc.
    do 4 eexists. split; [ reflexivity | ]. split; [ discriminate | ].
    split; [ reflexivity | ]. split; [ now exists [line] | ].
    split; [ intros _; exists line; split; [ now left | exact Eline ] | auto ]. }
  destruct (valid_menu_options py_int list_of_set py_float file n)
    as [ option | ] eqn:Eopt.
  2:{ unfold io_bind, io_print2. rewrite io_print_eq. unfold with_screen.
      cbn [my_dataset keyboard screen]. rewrite <- app_assoc. apply Hnext. }
  destruct (option_cases n option (mkConsole d rest (scr ++ shown0)) Eopt)
    as (o1 & d1 & kb1 & shown1 & E1 & Ho1 & Hh1 & [read1 Hr1] & H45).
  cbn [my_dataset keyboard screen] in *.
  unfold io_bind at 1. rewrite E1.
  assert (Hline : (forall l, In l (line :: rest) ->
                     py_int l <> Some 4%Z /\ py_int l <> Some 5%Z) ->
                  d1 = d /\ o1 = Returned tt).
  { intros H. destruct (H line (or_introl eq_refl)) as [N4 N5].
    apply H45; congruence. }
  destruct o1 as [ [] | e | | ]; [ | | | congruence ].
  - unfold io_bind at 1. rewrite io_print_eq. unfold with_screen.
    cbn [my_dataset keyboard screen].
    match goal with
    | |- context [menu_loop py_int list_of_set py_float file fuel ?w'] =>
        destruct (IH w') as (o & d' & kb' & shown & E & Ho & Hh & [read Hr] & H9 & Hk45);
          [ simpl; rewrite Hr1, length_app in Hlen; lia | ]
    end.
    cbn [my_dataset keyboard screen] in *. rewrite E.
    exists o, d', kb'. eexists. rewrite <- !app_assoc.
    split; [ reflexivity | ]. split; [ exact Ho | ].
    split; [ congruence | ].
    split; [ exists (line :: read1 ++ read); simpl; rewrite <- app_assoc; congruence | ].
    split.
    + intros Hret. destruct (H9 Hret) as (l & Hl & El). exists l.
      split; [ | exact El ]. right. rewrite Hr1. apply in_or_app. now right.
    + intros H. destruct (Hline H) as [-> _]. apply Hk45.
      intros l Hl. apply H. right. rewrite Hr1. apply in_or_app. now right.
  - exists (Uncaught e), d1, kb1. eexists. rewrite <- !app_assoc.
    split; [ reflexivity | ]. split; [ discriminate | ]. split; [ exact Hh1 | ].
    split; [ exists (line :: read1); simpl; congruence | ].
    split; [ discriminate | ].
    intros H. destruct (Hline H) as [_ Habs]. discriminate.
  - exists UncaughtEOF, d1, kb1. eexists. rewrite <- !app_assoc.
    split; [ reflexivity | ]. split; [ discriminate | ]. split; [ exact Hh1 | ].
    split; [ exists (line :: read1); simpl; congruence | ].
    split; [ discriminate | ].
    intros H. destruct (Hline H) as [-> _]. auto.
Qed.

(** X11: [menu] ends for every finite sequence of typed lines, and it
    returns only when a line it read is the number 9.  The lines left
    are a suffix of the lines there were. *)
Theorem menu_returns_on_quit (w : console) :
  fst (menu py_int list_of_set py_float file w) <> OutOfFuel
  /\ (fst (menu py_int list_of_set py_float file w) = Returned tt ->
      exists line, In line (keyboard w) /\ py_int line = Some 9%Z)
  /\ (exists read,
        keyboard w = read ++ keyboard (snd (menu py_int list_of_set py_float file w))).
Proof.
  unfold menu.
  destruct (menu_loop_cases (S (List.length (keyboard w))) w)
    as (o & d' & kb' & shown & E & Ho & Hh & Hr & H9 & H45); [ lia | ].
  rewrite E. simpl. auto.
Qed.

(** X12: [menu] never changes the header, and it leaves on the screen
    what was there.  When no line typed is the number 4 or 5, the object
    at the end is the object at the start, and [menu] ends by returning
    or by [EOFError]: showing a table never raises. *)
Theorem menu_frame (w : console) :
  _header (my_dataset (snd (menu py_int list_of_set py_float file w)))
  = _header (my_dataset w)
  /\ (exists shown,
        screen (snd (menu py_int list_of_set py_float file w)) = screen w ++ shown)
  /\ ((forall line, In line (keyboard w) ->
         py_int line <> Some 4%Z /\ py_int line <> Some 5%Z) ->
      my_dataset (snd (menu py_int list_of_set py_float file w)) = my_dataset w
      /\ (fst (menu py_int list_of_set py_float file w) = Returned tt
          \/ fst (menu py_int list_of_set py_float file w) = UncaughtEOF)).
Proof.
  unfold menu.
  destruct (menu_loop_cases (S (List.length (keyboard w))) w)
    as (o & d' & kb' & shown & E & Ho & Hh & Hr & H9 & H45); [ lia | ].
  rewrite E. simpl. eauto.
Qed.

(** The loop of [main] that asks for the header. *)
Lemma header_loop_cases (fuel : nat) (w : console) :
  List.length (keyboard w) < fuel ->
  exists o d' kb' shown,
    header_loop fuel w = (o, mkConsole d' kb' (screen w ++ shown))
    /\ (exists read, keyboard w = read ++ kb')
    /\ (o = UncaughtEOF /\ d' = my_dataset w
        \/ o = Returned tt
           /\ exists header, d' = with_header header (my_dataset w)
                             /\ String.length header <= 30)
    /\ (forall rejected header rest,
          keyboard w = rejected ++ header :: rest ->
          Forall (fun text => 30 < String.length text) rejected ->
          String.length header <= 30 ->
          o = Returned tt /\ d' = with_header header (my_dataset w) /\ kb' = rest).
Proof.
  revert w. induction fuel as [ | fuel IH ]; intros w Hlen; [ lia | ].
  destruct w as [d kb scr]. cbn [my_dataset keyboard screen] in *.
  cbn [header_loop]. unfold io_bind at 1. rewrite input_eq.
  cbn [my_dataset keyboard screen].
  destruct kb as [ | text rest ].
  { exists UncaughtEOF, d, []. eexists. unfold with_screen. simpl.
    split; [ reflexivity | ]. split; [ now exists [] | ]. split; [ auto | ].
    intros [ | ? ? ] ? ? H; discriminate. }
  simpl in Hlen. cbn [my_dataset]. unfold header_set.
  destruct (Nat.leb_spec (String.length text) 30) as [ Hle | Hgt ].
  - unfold with_dataset. cbn [my_dataset keyboard screen].
    exists (Returned tt), (with_header text d), rest. eexists.
    split; [ reflexivity | ]. split; [ now exists [text] | ].
    split; [ right; eauto | ].
    intros [ | text' rejected ] header rest' H HF Hh; simpl in H.
    + injection H as <- <-. auto.
    + injection H as <- _. inversion HF; subst. lia.
  - unfold with_dataset. cbn [my_dataset keyboard screen].
    unfold io_bind at 1. rewrite io_print_eq. unfold with_screen.
    cbn [my_dataset keyboard screen].
    match goal with
    | |- context [header_loop fuel ?w'] =>
        destruct (IH w') as (o & d' & kb' & shown & E & [read Hr] & Ho & Hsel);
          [ simpl; lia | ]
    end.
    cbn [my_dataset keyboard screen] in *. rewrite E.
    exists o, d', kb'. eexists. rewrite <- !app_assoc.
    split; [ reflexivity | ].
    split; [ exists (text :: read); simpl; congruence | ].
    split; [ exact Ho | ].
    intros [ | text' rejected ] header rest' H HF Hh; simpl in H.
    + injection H as <- _. lia.
    + injection H as <- H. inversion HF; subst. eapply Hsel; eauto.
Qed.

Lemma main_cases (typed : list string) :
  exists o d' kb' shown,
    main py_int list_of_set py_float file (start typed)
    = (o, mkConsole d' kb' shown)
    /\ o <> OutOfFuel
    /\ String.length (_header d') <= 30
    /\ (forall name rejected header rest,
          typed = name :: rejected ++ header :: rest ->
          Forall (fun text => 30 < String.length text) rejected ->
          String.length header <= 30 ->
          _header d' = header)
    /\ (o = Returned tt ->
        exists line, In line typed /\ py_int line = Some 9%Z).
Proof.
  unfold main, start. unfold io_bind at 1. rewrite input_eq.
  cbn [my_dataset keyboard screen].
  destruct typed as [ | name typed ].
  { do 4 eexists. split; [ reflexivity | ]. split; [ discriminate | ].
    split; [ simpl; lia | ].
    split; [ intros ? ? ? ? H; discriminate | discriminate ]. }
  unfold io_bind at 1. rewrite io_print_eq. unfold with_screen.
  cbn [my_dataset keyboard screen].
  unfold io_bind at 1. unfold io_lift.
  cbn [__init__ header_set String.length Nat.leb of_result].
  unfold io_bind at 1. unfold with_dataset, with_header, with_data, with_zips,
    with_times. cbn [my_dataset keyboard screen _header _data _zips _times].
  unfold io_bind at 1.
  match goal with
  | |- context [header_loop ?f ?w'] =>
      destruct (header_loop_cases f w')
        as (o & d' & kb' & shown & E & [read Hr] & Ho & Hsel);
        [ simpl; lia | ]
  end.
  cbn [my_dataset keyboard screen] in *. rewrite E.
  destruct Ho as [ [-> ->] | [-> (header & -> & Hlen)] ].
  { do 4 eexists. split; [ reflexivity | ]. split; [ discriminate | ].
    split; [ simpl; lia | ]. split; [ | discriminate ].
    intros name' rejected header rest H HF Hh. injection H as _ H.
    destruct (Hsel _ _ _ H HF Hh) as [Habs _]. discriminate. }
  unfold io_bind at 1. rewrite io_print_eq. unfold with_screen.
  cbn [my_dataset keyboard screen]. unfold menu.
  match goal with
  | |- context [menu_loop _ _ _ _ ?f ?w'] =>
      destruct (menu_loop_cases f w')
        as (o & d' & kb'' & shown' & E' & Ho & Hh & [read' Hr'] & H9 & _);
        [ simpl; lia | ]
  end.
  cbn [my_dataset keyboard screen] in *. rewrite E'.
  do 4 eexists. split; [ reflexivity | ]. split; [ exact Ho | ].
  rewrite Hh. simpl _header. split; [ exact Hlen | ]. split.
  - intros name' rejected header' rest H HF Hh'. injection H as _ H.
    destruct (Hsel _ _ _ H HF Hh') as (_ & Hd & _).
    apply (f_equal _header) in Hd. exact Hd.
  - intros Hret. destruct (H9 Hret) as (line & Hl & El). exists line.
    split; [ | exact El ]. right. rewrite Hr. apply in_or_app. now right.
Qed.

(** X13: [main] ends for every finite sequence of typed lines.  The
    first line is the name; of the lines after it, those of more than 30
    characters are refused and the first of at most 30 becomes the
    header, which the object keeps to the end.  [main] returns only when
    a line typed is the number 9. *)
Theorem main_spec (typed : list string) :
  fst (main py_int list_of_set py_float file (start typed)) <> OutOfFuel
  /\ String.length
       (_header (my_dataset (snd (main py_int list_of_set py_float file (start typed)))))
     <= 30
  /\ (forall name rejected header rest,
        typed = name :: rejected ++ header :: rest ->
        Forall (fun text => 30 < String.length text) rejected ->
        String.length header <= 30 ->
        _header (my_dataset (snd (main py_int list_of_set py_float file (start typed))))
        = header)
  /\ (fst (main py_int list_of_set py_float file (start typed)) = Returned tt ->
      exists line, In line typed /\ py_int line = Some 9%Z).
Proof.
  destruct (main_cases typed) as (o & d' & kb' & shown & E & H).
  rewrite E. exact H.
Qed.
End MenuFacts.

(** A session: a header refused and one accepted, the filters before any
    load, a load, a table, the second zip code toggled among lines that
    select nothing, a table, and 9. *)
Example main_session :
  let r := main digits_int (fun s => s) (fun _ => Ok 1.5%float) example_file
             (start example_session) in
  fst r = Returned tt
  /\ my_dataset (snd r)
     = mkDataSet "The Last Header :D"
         (Some [("94022", "Night", 1.5%float); ("94028", "Night", 1.5%float)])
         [("94022", true); ("94028", false)] ["Night"]
  /\ keyboard (snd r) = ["never read"].
Proof. vm_compute. repeat split. Qed.

(** With a file without readings, choice 4 after choice 5 ends the
    program with [IndexError]. *)
Example main_empty_file :
  fst (main digits_int (fun s => s) (fun _ => Ok 1.5%float) (Some [])
         (start ["Owen"; "h"; "5"; "4"; "9"]))
  = Uncaught IndexError.
Proof. vm_compute. reflexivity. Qed.
